(** * Latent-FS front end: a shallow embedding of the client code

    The TypeScript sources embedded here are

      - [frontend/lib/api-client.ts]   (Zod schemas, [LatentFSClient])
      - [frontend/lib/types.ts]        (the wire types)
      - [frontend/hooks/useToast.ts], [components/Toast.tsx]
      - [frontend/hooks/useClusterData.ts]
      - [frontend/components/Sidebar.tsx] ([FolderItem.handleDrop])
      - [frontend/components/FileSystemView.tsx] ([handleFolderDrop])
      - [frontend/components/GridView.tsx]
      - [frontend/components/EmptyState.tsx]
      - [frontend/components/DocumentCardNative.tsx]
      - [frontend/app/page.tsx]

    Pure functions are Rocq functions.  Code that talks to the network is
    written against an explicit environment ([World]) that answers every
    [fetch]; React state is an explicit record that the handlers transform.
    The first half of the file holds the definitions, the second half the
    lemmas and theorems. *)

From Stdlib Require Import ZArith QArith List Ascii String Bool Lia.
From Stdlib Require Import DecimalString.
Import ListNotations.

Set Warnings "-register-all".

Local Open Scope string_scope.
Local Open Scope Z_scope.

(* ===================================================================== *)
(** ** JavaScript values *)
(* ===================================================================== *)

Module JS.

(** What [JSON.parse] and [response.json()] can return.  Numbers are
    the finite ones; an object is its list of own properties, read by
    name with the first binding. *)
Inductive json : Type :=
| JNull
| JBool (b : bool)
| JNum (q : Q)
| JStr (s : string)
| JArr (items : list json)
| JObj (props : list (string * json)).

(** A JavaScript value position that may also hold [undefined]. *)
Definition jsval : Type := option json.
Definition undefined : jsval := None.

Fixpoint lookup (k : string) (props : list (string * json)) : jsval :=
  match props with
  | [] => undefined
  | (k', v) :: rest => if String.eqb k k' then Some v else lookup k rest
  end.

(** A value thrown by the platform: an [Error] with its [name] and
    [message], or something that is not [instanceof Error]. *)
Inductive exn : Type :=
| ErrorObj (name message : string)
| NonError.

(** What the [catch] of [request] can receive: a [ZodError] (raised by
    [schema.parse] only) or a platform exception. *)
Inductive caught : Type :=
| ZodError (message : string)
| Other (e : exn).

(** [v.k] for a property name [k] that is neither an index nor a member
    of [String.prototype] / [Array.prototype] (the program reads only
    [detail], [message], [documentId], [sourceFolderId]).  Reading a
    property of [null] raises a [TypeError] whose message is the
    engine's. *)
Definition get (type_error_message : string) (v : json) (k : string)
  : exn + jsval :=
  match v with
  | JNull => inl (ErrorObj "TypeError" type_error_message)
  | JObj props => inr (lookup k props)
  | _ => inr undefined
  end.

(** Truthiness. *)
Definition truthy (v : jsval) : bool :=
  match v with
  | None => false
  | Some JNull => false
  | Some (JBool b) => b
  | Some (JNum q) => negb (Qeq_bool q 0)
  | Some (JStr s) => negb (String.eqb s "")
  | Some (JArr _) => true
  | Some (JObj _) => true
  end.

Definition truthy_string (s : string) : bool := negb (String.eqb s "").

(** [a || b] *)
Definition or_else (a b : jsval) : jsval := if truthy a then a else b.

(** [v === s] where [s] is a string. *)
Definition strict_eq_string (v : jsval) (s : string) : bool :=
  match v with
  | Some (JStr s') => String.eqb s' s
  | _ => false
  end.

(** [a ?? b], also the value of a parameter or binding declared with the
    default [b]. *)
Definition nullish {A} (a : option A) (b : A) : A :=
  match a with Some x => x | None => b end.

(** [o?.f] *)
Definition optional {A B} (o : option A) (f : A -> option B) : option B :=
  match o with Some x => f x | None => None end.

(** [`${n}`] for an integer. *)
Definition Z_to_string (z : Z) : string :=
  NilZero.string_of_int (Z.to_int z).

End JS.
Import JS.

(* ===================================================================== *)
(** ** The part of Zod the client uses *)
(* ===================================================================== *)

Module Zod.

(** A schema of output type [T]: [parse] either returns the validated
    (and, for objects, stripped) value or throws a [ZodError]. *)
Definition ZodSchema (T : Type) : Type := jsval -> option T.

Definition bind {A B : Type} (a : option A) (k : A -> option B)
  : option B :=
  match a with Some x => k x | None => None end.

Fixpoint traverse {A B : Type} (f : A -> option B) (l : list A)
  : option (list B) :=
  match l with
  | [] => Some []
  | x :: rest =>
      match f x with
      | Some y =>
          match traverse f rest with
          | Some ys => Some (y :: ys)
          | None => None
          end
      | None => None
      end
  end.

Definition string : ZodSchema String.string :=
  fun v => match v with Some (JStr s) => Some s | _ => None end.

Definition number : ZodSchema Q :=
  fun v => match v with Some (JNum q) => Some q | _ => None end.

Definition boolean : ZodSchema bool :=
  fun v => match v with Some (JBool b) => Some b | _ => None end.

Definition any : ZodSchema jsval := fun v => Some v.

Definition nullable {T} (s : ZodSchema T) : ZodSchema (option T) :=
  fun v =>
    match v with
    | Some JNull => Some None
    | _ => bind (s v) (fun t => Some (Some t))
    end.

Definition array {T} (s : ZodSchema T) : ZodSchema (list T) :=
  fun v =>
    match v with
    | Some (JArr items) => traverse (fun x => s (Some x)) items
    | _ => None
    end.

(** [z.record(z.string(), z.any())]: any plain object; every value passes
    [z.any()]. *)
Definition record_string_any : ZodSchema (list (String.string * json)) :=
  fun v =>
    match v with
    | Some (JObj props) =>
        traverse (fun kv => bind (any (Some (snd kv)))
                              (fun _ => Some kv)) props
    | _ => None
    end.

(** [z.object({ ... })]: the input must be a plain object; every key of
    the shape is read from it (a missing key reads as [undefined]) and
    parsed by its schema; keys outside the shape are dropped. *)
Definition object {T} (shape : list (String.string * json) -> option T)
  : ZodSchema T :=
  fun v => match v with Some (JObj props) => shape props | _ => None end.

Definition field {T} (k : String.string) (s : ZodSchema T)
           (props : list (String.string * json)) : option T :=
  s (lookup k props).

(** [s] accepts [v]: [s.parse(v)] returns instead of throwing. *)
Definition accepted {T} (s : ZodSchema T) (v : jsval) : Prop :=
  exists t, s v = Some t.

End Zod.

Notation "x <- e ;; k" := (Zod.bind e (fun x => k))
  (at level 61, e at next level, right associativity).

(* ===================================================================== *)
(** ** [lib/types.ts] *)
(* ===================================================================== *)

Record Document : Type := mkDocument {
  doc_id : string;
  doc_text : string;
  doc_embedding : list Q;
  doc_cluster_id : option string;
  doc_metadata : list (string * json);
  doc_created_at : string;
  doc_updated_at : string
}.

Record Cluster : Type := mkCluster {
  cl_id : string;
  cl_name : string;
  cl_centroid : list Q;
  cl_document_ids : list string;
  cl_representative_doc_id : string
}.

Record SemanticFolder : Type := mkSemanticFolder {
  sf_id : string;
  sf_name : string;
  sf_documentCount : nat;
  sf_color : string;
  sf_representativeDocId : string
}.

Record ClusterData : Type := mkClusterData {
  folders : list Cluster;
  documents : list Document;
  timestamp : string
}.

Record IngestResponse : Type := mkIngestResponse {
  ing_success : bool;
  ing_document_ids : list string;
  ing_count : Q;
  ing_message : string
}.

Record ReEmbedResponse : Type := mkReEmbedResponse {
  re_success : bool;
  new_cluster_id : string;
  updated_clusters : ClusterData
}.

(** [APIError] is declared [{ detail: string; status: number }]; at run
    time [detail] holds whatever the error body carried. *)
Record APIError : Type := mkAPIError {
  detail : jsval;
  status : Z
}.

Inductive APIResult (T : Type) : Type :=
| Success (data : T)
| Failure (error : APIError).
Arguments Success {T} data.
Arguments Failure {T} error.

(* ===================================================================== *)
(** ** [lib/api-client.ts] *)
(* ===================================================================== *)

Module ApiClient.
Import Zod.

Definition DocumentSchema : ZodSchema Document :=
  object (fun o =>
    id <- field "id" Zod.string o ;;
    text <- field "text" Zod.string o ;;
    embedding <- field "embedding" (array number) o ;;
    cluster_id <- field "cluster_id" (nullable Zod.string) o ;;
    metadata <- field "metadata" record_string_any o ;;
    created_at <- field "created_at" Zod.string o ;;
    updated_at <- field "updated_at" Zod.string o ;;
    Some (mkDocument id text embedding cluster_id metadata
                     created_at updated_at)).

Definition ClusterSchema : ZodSchema Cluster :=
  object (fun o =>
    id <- field "id" Zod.string o ;;
    name <- field "name" Zod.string o ;;
    centroid <- field "centroid" (array number) o ;;
    document_ids <- field "document_ids" (array Zod.string) o ;;
    representative_doc_id <- field "representative_doc_id" Zod.string o ;;
    Some (mkCluster id name centroid document_ids representative_doc_id)).

Definition ClusterDataSchema : ZodSchema ClusterData :=
  object (fun o =>
    fs <- field "folders" (array ClusterSchema) o ;;
    ds <- field "documents" (array DocumentSchema) o ;;
    ts <- field "timestamp" Zod.string o ;;
    Some (mkClusterData fs ds ts)).

Definition IngestResponseSchema : ZodSchema IngestResponse :=
  object (fun o =>
    success <- field "success" boolean o ;;
    document_ids <- field "document_ids" (array Zod.string) o ;;
    count <- field "count" number o ;;
    message <- field "message" Zod.string o ;;
    Some (mkIngestResponse success document_ids count message)).

Definition ClusterResponseSchema : ZodSchema ClusterData :=
  object (fun o =>
    fs <- field "folders" (array ClusterSchema) o ;;
    ds <- field "documents" (array DocumentSchema) o ;;
    ts <- field "timestamp" Zod.string o ;;
    Some (mkClusterData fs ds ts)).

Definition ReEmbedResponseSchema : ZodSchema ReEmbedResponse :=
  object (fun o =>
    success <- field "success" boolean o ;;
    new_id <- field "new_cluster_id" Zod.string o ;;
    updated <- field "updated_clusters" ClusterResponseSchema o ;;
    Some (mkReEmbedResponse success new_id updated)).

(** *** The environment of a request *)

Record RequestInit : Type := mkRequestInit {
  method : String.string;
  (** the object handed to [JSON.stringify], when there is a body *)
  body : option (list (String.string * jsval))
}.

Record Response : Type := mkResponse {
  resp_status : Z;
  resp_statusText : String.string;
  (** what [response.json()] settles to *)
  resp_json : exn + json
}.

(** [response.ok] *)
Definition ok (r : Response) : bool :=
  (200 <=? resp_status r) && (resp_status r <=? 299).

Inductive FetchOutcome : Type :=
| Resolves (r : Response)
| Rejects (e : exn).

(** Everything outside the client that a call depends on: the answer to
    the [attempt]-th [fetch] of the call (a timeout shows as a rejection
    named [AbortError]), the text of the [ZodError] raised for a rejected
    body and the text of the engine's [TypeError]. *)
Record World : Type := mkWorld {
  fetch : Z -> String.string -> RequestInit -> FetchOutcome;
  ZodError_message : json -> String.string;
  TypeError_message : String.string
}.

Inductive Event : Type :=
| EvFetch (attempt : Z) (url : String.string)
| EvSleep (ms : Z).

(** *** [LatentFSClient] *)

Record LatentFSClientConfig : Type := mkConfig {
  cfg_baseURL : String.string;
  cfg_maxRetries : option Z;
  cfg_retryDelay : option Z;
  cfg_timeout : option Z
}.

Record LatentFSClient : Type := mkClient {
  baseURL : String.string;
  maxRetries : Z;
  retryDelay : Z;
  timeout : Z
}.

(** [s.replace(/\/$/, '')] *)
Fixpoint remove_trailing_slash (s : String.string) : String.string :=
  match s with
  | EmptyString => EmptyString
  | String c EmptyString => if Ascii.eqb c "/"%char then EmptyString else s
  | String c rest => String c (remove_trailing_slash rest)
  end.

Definition constructor (config : LatentFSClientConfig) : LatentFSClient :=
  {| baseURL := remove_trailing_slash (cfg_baseURL config);
     maxRetries := nullish (cfg_maxRetries config) 3;
     retryDelay := nullish (cfg_retryDelay config) 1000;
     timeout := nullish (cfg_timeout config) 30000 |}.

Section Request.

Context {T : Type}.
Variable this : LatentFSClient.
Variable w : World.
Variable endpoint : String.string.
Variable options : RequestInit.
Variable schema : ZodSchema T.

Definition url : String.string := baseURL this ++ endpoint.

(** How one iteration of the retry loop ends. *)
Inductive Iteration : Type :=
| Return (r : APIResult T)
| Continue (lastError : APIError) (ms : Z).

(** The body of [try { ... }]: either a value thrown out of it or the way
    the iteration ends. *)
Definition try_block (attempt : Z) : caught + Iteration :=
  match fetch w attempt url options with
  | Rejects e => inl (Other e)
  | Resolves response =>
      if negb (ok response) then
        let errorData :=
          match resp_json response with
          | inr v => v
          | inl _ =>
              JObj [("detail",
                     JStr ("HTTP " ++ Z_to_string (resp_status response)
                           ++ ": " ++ resp_statusText response))]
          end in
        match get (TypeError_message w) errorData "detail" with
        | inl e => inl (Other e)
        | inr d =>
            let detail_or_message :=
              if truthy d then inr d
              else get (TypeError_message w) errorData "message" in
            match detail_or_message with
            | inl e => inl (Other e)
            | inr dm =>
                let lastError :=
                  {| detail := or_else dm (Some (JStr "Unknown error"));
                     status := resp_status response |} in
                if (400 <=? resp_status response)
                   && (resp_status response <? 500)
                then inr (Return (Failure lastError))
                else if attempt <? maxRetries this
                then inr (Continue lastError (retryDelay this * 2 ^ attempt))
                else inr (Return (Failure lastError))
            end
        end
      else
        match resp_json response with
        | inl e => inl (Other e)
        | inr data =>
            match schema (Some data) with
            | Some validated => inr (Return (Success validated))
            | None => inl (ZodError (ZodError_message w data))
            end
        end
  end.

(** The body of [catch (error) { ... }]. *)
Definition catch_block (attempt : Z) (error : caught) : Iteration :=
  match error with
  | ZodError message =>
      Return (Failure
        {| detail := Some (JStr ("Invalid response format: " ++ message));
           status := 0 |})
  | Other e =>
      let lastError :=
        match e with
        | ErrorObj name message =>
            if String.eqb name "AbortError"
            then {| detail := Some (JStr "Request timeout"); status := 0 |}
            else {| detail := or_else (Some (JStr message))
                                      (Some (JStr "Network error"));
                    status := 0 |}
        | NonError =>
            {| detail := Some (JStr "Unknown error occurred"); status := 0 |}
        end in
      if attempt <? maxRetries this
      then Continue lastError (retryDelay this * 2 ^ attempt)
      else Return (Failure lastError)
  end.

Definition iteration (attempt : Z) : Iteration :=
  match try_block attempt with
  | inr i => i
  | inl error => catch_block attempt error
  end.

(** [for (let attempt = 0; attempt <= this.maxRetries; attempt++)], by
    recursion on the number [remaining] of values of [attempt] that still
    pass the loop test ([remaining = 0] exactly when
    [attempt > maxRetries]); after the loop comes the final [return]. *)
Fixpoint request_loop (remaining : nat) (attempt : Z)
         (lastError : option APIError) : APIResult T * list Event :=
  match remaining with
  | O =>
      (Failure (nullish lastError
                  {| detail := Some (JStr "Max retries exceeded");
                     status := 0 |}), [])
  | S remaining' =>
      match iteration attempt with
      | Return r => (r, [EvFetch attempt url])
      | Continue e ms =>
          let '(r, log) := request_loop remaining' (attempt + 1) (Some e) in
          (r, EvFetch attempt url :: EvSleep ms :: log)
      end
  end.

(** The error built from a [ZodError]. *)
Definition invalid_format (data : json) : APIError :=
  {| detail := Some (JStr ("Invalid response format: "
                           ++ ZodError_message w data));
     status := 0 |}.

(** Every error that leaves an iteration has a truthy [detail]. *)
Definition truthy_error (e : APIError) : Prop := truthy (detail e) = true.

Definition ends_truthy (i : Iteration) : Prop :=
  match i with
  | Return (Success _) => True
  | Return (Failure e) => truthy_error e
  | Continue e _ => truthy_error e
  end.

Definition request : APIResult T * list Event :=
  request_loop (Z.to_nat (maxRetries this + 1)) 0 None.

End Request.

(** The number of [fetch] calls in a log. *)
Definition attempts (log : list Event) : nat :=
  List.length (filter (fun ev => match ev with EvFetch _ _ => true
                                          | EvSleep _ => false end) log).


(** The [options] of [ingestDocuments]; [body] is the object given to
    [JSON.stringify]. *)
Definition ingest_init (texts : list String.string) : RequestInit :=
  {| method := "POST";
     body := Some [("texts", Some (JArr (map JStr texts)))] |}.

Definition ingestDocuments (this : LatentFSClient) (w : World)
           (texts : list String.string) :=
  request this w "/ingest" (ingest_init texts) IngestResponseSchema.

Definition getClusters (this : LatentFSClient) (w : World) :=
  request this w "/cluster"
    {| method := "GET"; body := None |}
    ClusterDataSchema.

(** The [options] of [reEmbedDocument]. *)
Definition reEmbed_init (documentId : jsval) (targetFolderId : String.string)
  : RequestInit :=
  {| method := "POST";
     body := Some [("document_id", documentId);
                   ("target_folder_id", Some (JStr targetFolderId))] |}.

Definition reEmbedDocument (this : LatentFSClient) (w : World)
           (documentId : jsval) (targetFolderId : String.string) :=
  request this w "/re-embed" (reEmbed_init documentId targetFolderId)
    ReEmbedResponseSchema.

(** [createAPIClient]: [browser] is [typeof window !== 'undefined'],
    [env_url] is [process.env.NEXT_PUBLIC_API_URL]. *)
Definition createAPIClient (browser : bool) (env_url : option String.string)
  : LatentFSClient :=
  let base :=
    if browser then "http://localhost:9999"
    else match env_url with
         | Some u => if truthy_string u then u else "http://localhost:9999"
         | None => "http://localhost:9999"
         end in
  constructor {| cfg_baseURL := base ++ "/api";
                 cfg_maxRetries := Some 3;
                 cfg_retryDelay := Some 1000;
                 cfg_timeout := Some 30000 |}.

(** [export const apiClient = createAPIClient()] *)
Definition apiClient (browser : bool) (env_url : option String.string)
  : LatentFSClient :=
  createAPIClient browser env_url.

End ApiClient.

(** Sample environments and bodies, used to exercise the definitions. *)
Module Sample.
Import ApiClient.

(** A backend that answers every attempt with the same response. *)
Definition always (st : Z) (text : string) (b : exn + json) : World :=
  {| fetch := fun _ _ _ =>
       Resolves {| resp_status := st; resp_statusText := text;
                   resp_json := b |};
     ZodError_message := fun _ => "[ ... ]";
     TypeError_message :=
       "Cannot read properties of null (reading 'detail')" |}.

(** A backend that cannot be reached. *)
Definition unreachable : World :=
  {| fetch := fun _ _ _ => Rejects (ErrorObj "TypeError" "Failed to fetch");
     ZodError_message := fun _ => "[ ... ]";
     TypeError_message :=
       "Cannot read properties of null (reading 'detail')" |}.

Definition folder_json : json :=
  JObj [("id", JStr "c0"); ("name", JStr "Physics");
        ("centroid", JArr [JNum 1; JNum 0]);
        ("document_ids", JArr [JStr "d0"]);
        ("representative_doc_id", JStr "d0")].

Definition document_json (cluster_id : json) : json :=
  JObj [("id", JStr "d0"); ("text", JStr "quantum");
        ("embedding", JArr [JNum 1; JNum 0]);
        ("cluster_id", cluster_id);
        ("metadata", JObj [("source", JStr "demo")]);
        ("created_at", JStr "2026-01-01T00:00:00");
        ("updated_at", JStr "2026-01-01T00:00:00")].

Definition snapshot_json : json :=
  JObj [("folders", JArr [folder_json]);
        ("documents", JArr [document_json (JStr "c0")]);
        ("timestamp", JStr "2026-01-01T00:00:00")].

(** A snapshot whose only document names a folder that is not there. *)
Definition dangling_json : json :=
  JObj [("folders", JArr []);
        ("documents", JArr [document_json (JStr "ghost")]);
        ("timestamp", JStr "2026-01-01T00:00:00")].

(** The ingest result as the interface description gives it. *)
Definition ingest_json : json :=
  JObj [("document_ids", JArr [JStr "d0"]); ("count", JNum 1)].

(** The ingest result as [types.ts] declares it. *)
Definition ingest_full_json : json :=
  JObj [("success", JBool true);
        ("document_ids", JArr [JStr "d0"]); ("count", JNum 1);
        ("message", JStr "ingested")].

Definition reembed_json : json :=
  JObj [("success", JBool true); ("new_cluster_id", JStr "c0");
        ("updated_clusters", snapshot_json)].

End Sample.

(** How an awaited promise settles. *)
Inductive Settled (T : Type) : Type :=
| Fulfilled (v : T)
| Rejected (e : exn).
Arguments Fulfilled {T} v.
Arguments Rejected {T} e.

(* ===================================================================== *)
(** ** [hooks/useToast.ts] and [components/Toast.tsx] *)
(* ===================================================================== *)

Module UseToast.

Inductive ToastType : Type := error | success | info.

(** [R] is the type of the [onRetry] callbacks. *)
Record Toast (R : Type) : Type := mkToast {
  id : string;
  type : ToastType;
  message : jsval;
  canRetry : option bool;
  onRetry : option R;
  duration : option Z
}.
Arguments mkToast {R}.
Arguments id {R}.
Arguments type {R}.
Arguments message {R}.
Arguments canRetry {R}.
Arguments onRetry {R}.
Arguments duration {R}.

Record ToastOptions (R : Type) : Type := mkToastOptions {
  opt_canRetry : option bool;
  opt_onRetry : option R;
  opt_duration : option Z
}.
Arguments mkToastOptions {R}.
Arguments opt_canRetry {R}.
Arguments opt_onRetry {R}.
Arguments opt_duration {R}.

Record ErrorOptions (R : Type) : Type := mkErrorOptions {
  err_canRetry : option bool;
  err_onRetry : option R
}.
Arguments mkErrorOptions {R}.
Arguments err_canRetry {R}.
Arguments err_onRetry {R}.

Section Hook.

Context {R : Type}.

(** [showToast]; [fresh] is the string
    [`toast-${Date.now()}-${Math.random()}`]. *)
Definition showToast (fresh : string) (ty : ToastType) (msg : jsval)
           (options : option (ToastOptions R))
           (toasts : list (Toast R)) : list (Toast R) :=
  let newToast :=
    {| id := fresh;
       type := ty;
       message := msg;
       canRetry := optional options opt_canRetry;
       onRetry := optional options opt_onRetry;
       duration := optional options opt_duration |} in
  toasts ++ [newToast].

Definition dismissToast (i : string) (toasts : list (Toast R))
  : list (Toast R) :=
  filter (fun t => negb (String.eqb (id t) i)) toasts.

Definition dismissAll (toasts : list (Toast R)) : list (Toast R) := [].

(** [options?.canRetry ? 0 : 7000] *)
Definition showError (fresh : string) (msg : jsval)
           (options : option (ErrorOptions R))
           (toasts : list (Toast R)) : list (Toast R) :=
  showToast fresh error msg
    (Some {| opt_canRetry := optional options err_canRetry;
             opt_onRetry := optional options err_onRetry;
             opt_duration :=
               Some (match optional options err_canRetry with
                     | Some true => 0
                     | _ => 7000
                     end) |})
    toasts.

Definition showSuccess (fresh : string) (msg : jsval) (d : option Z)
           (toasts : list (Toast R)) : list (Toast R) :=
  showToast fresh success msg
    (Some {| opt_canRetry := None; opt_onRetry := None;
             opt_duration := Some (nullish d 4000) |})
    toasts.

Definition showInfo (fresh : string) (msg : jsval) (d : option Z)
           (toasts : list (Toast R)) : list (Toast R) :=
  showToast fresh info msg
    (Some {| opt_canRetry := None; opt_onRetry := None;
             opt_duration := Some (nullish d 5000) |})
    toasts.

(** [ToastItem]: [const { ..., duration = 5000 } = toast]; the effect
    arms a timer that dismisses the toast only when [duration > 0]. *)
Definition auto_dismiss_after (t : Toast R) : option Z :=
  let d := nullish (duration t) 5000 in
  if 0 <? d then Some d else None.

(** [canRetry && onRetry]: the callback behind the Retry button, when the
    button is rendered. *)
Definition retry_button (t : Toast R) : option R :=
  match canRetry t with
  | Some true => onRetry t
  | _ => None
  end.

End Hook.

End UseToast.

(* ===================================================================== *)
(** ** [hooks/useClusterData.ts] *)
(* ===================================================================== *)

Module UseClusterData.

Record State : Type := mkState {
  data : option ClusterData;
  loading : bool;
  error : option APIError
}.

(** [useState] initial values. *)
Definition initial (fetchOnMount : bool) : State :=
  {| data := None; loading := fetchOnMount; error := None |}.

(** [fetchData] up to its [await]. *)
Definition fetchData_begin (st : State) : State :=
  {| data := data st; loading := true; error := None |}.

(** [fetchData] from the moment [apiClient.getClusters()] settles. *)
Definition fetchData_resume (o : Settled (APIResult ClusterData))
           (st : State) : State :=
  let st1 :=
    match o with
    | Fulfilled (Success d) =>
        {| data := Some d; loading := loading st; error := None |}
    | Fulfilled (Failure e) =>
        {| data := data st; loading := loading st; error := Some e |}
    | Rejected err =>
        let apiError :=
          {| detail :=
               match err with
               | ErrorObj _ m => Some (JStr m)
               | NonError => Some (JStr "Unknown error occurred")
               end;
             status := 0 |} in
        {| data := data st; loading := loading st; error := Some apiError |}
    end in
  (* finally *)
  {| data := data st1; loading := false; error := error st1 |}.

Definition fetchData (o : Settled (APIResult ClusterData)) (st : State)
  : State :=
  fetchData_resume o (fetchData_begin st).

(** A fetch failed when the call returned [{ success: false }] or threw. *)
Definition failed {T} (o : Settled (APIResult T)) : bool :=
  match o with
  | Fulfilled (Success _) => false
  | _ => true
  end.

End UseClusterData.

(* ===================================================================== *)
(** ** [components/DocumentCardNative.tsx], [components/Sidebar.tsx] *)
(* ===================================================================== *)

Module Sidebar.

(** The object [handleDragStart] hands to [JSON.stringify]. *)
Definition drag_payload (doc : Document) : json :=
  JObj [("documentId", JStr (doc_id doc));
        ("sourceFolderId",
         match doc_cluster_id doc with
         | Some c => JStr c
         | None => JNull
         end)].

Inductive Effect : Type :=
| preventDefault
| setDragOver (b : bool)
| setCanAcceptDrop (b : bool)
| onDrop (documentId : jsval)
| console_error.

Section FolderItem.

(** [JSON.parse], which throws on text that is not JSON, and the text of
    the engine's [TypeError]. *)
Variable JSON_parse : string -> exn + json.
Variable TypeError_message : string.

(** [FolderItem.handleDrop]; [data] is
    [e.dataTransfer.getData('application/json')]. *)
Definition handleDrop (folder : SemanticFolder) (data : string)
  : list Effect :=
  [preventDefault; setDragOver false; setCanAcceptDrop false] ++
  match JSON_parse data with
  | inl _ => [console_error]
  | inr parsed =>
      match get TypeError_message parsed "documentId" with
      | inl _ => [console_error]
      | inr documentId =>
          match get TypeError_message parsed "sourceFolderId" with
          | inl _ => [console_error]
          | inr sourceFolderId =>
              if negb (strict_eq_string sourceFolderId (sf_id folder))
              then [onDrop documentId]
              else []
          end
      end
  end.

(** [onDrop={(documentId) => onFolderDrop(folder.id, documentId)}]: the
    calls of [onFolderDrop] that a drop on [folder] makes. *)
Definition onFolderDrop_calls (folder : SemanticFolder) (data : string)
  : list (string * jsval) :=
  flat_map (fun e =>
              match e with
              | onDrop documentId => [(sf_id folder, documentId)]
              | _ => []
              end)
           (handleDrop folder data).

End FolderItem.

End Sidebar.

(* ===================================================================== *)
(** ** [components/GridView.tsx] *)
(* ===================================================================== *)

Module GridView.

Inductive EmptyStateType : Type :=
| no_documents | no_folders | no_data | folder_empty.

Inductive Body : Type :=
| EmptyState (ty : EmptyStateType)
| Grid (cards : list Document).

Record Rendered : Type := mkRendered {
  heading : string;
  count : nat;
  count_noun : string;
  content : Body
}.

(** [selectedFolderId ? ... : ...] tests truthiness: [null] and the empty
    string both take the second branch. *)
Definition selected (selectedFolderId : option string) : bool :=
  match selectedFolderId with
  | Some s => truthy_string s
  | None => false
  end.

(** [doc.cluster_id === selectedFolderId] *)
Definition in_folder (selectedFolderId : option string) (doc : Document)
  : bool :=
  match doc_cluster_id doc, selectedFolderId with
  | Some c, Some s => String.eqb c s
  | None, None => true
  | _, _ => false
  end.

(** The documents whose [cluster_id] equals [folderId]. *)
Definition documents_of_folder (folderId : string) (docs : list Document)
  : list Document :=
  filter (fun d => match doc_cluster_id d with
                   | Some c => String.eqb c folderId
                   | None => false
                   end) docs.

Definition filteredDocuments (docs : list Document)
           (selectedFolderId : option string) : list Document :=
  if selected selectedFolderId
  then filter (in_folder selectedFolderId) docs
  else docs.

Definition GridView (docs : list Document)
           (selectedFolderId : option string) : Rendered :=
  let filtered := filteredDocuments docs selectedFolderId in
  {| heading := if selected selectedFolderId
                then "Folder Contents" else "All Documents";
     count := List.length filtered;
     count_noun := if Nat.eqb (List.length filtered) 1
                   then "document" else "documents";
     content :=
       if Nat.eqb (List.length filtered) 0
       then EmptyState (if selected selectedFolderId
                        then folder_empty else no_documents)
       else Grid filtered |}.

End GridView.

(* ===================================================================== *)
(** ** [components/FileSystemView.tsx] *)
(* ===================================================================== *)

Module FileSystemView.
Import UseToast.

(** A call [handleFolderDrop(targetFolderId, documentId)] of one instance
    of the handler.  The component function defines a new
    [handleFolderDrop] at every render, and each instance reads the
    [isReEmbedding] of its own render.  The thunk
    [() => handleFolderDrop(targetFolderId, documentId)] stored in a toast
    is such a call, kept for later. *)
Record Invocation : Type := mkInvocation {
  inv_isReEmbedding : bool;
  inv_targetFolderId : string;
  inv_documentId : jsval
}.

(** The [useState] cells of the component and of [useToast]. *)
Record ViewState : Type := mkViewState {
  selectedFolderId : option string;
  clusterData : option ClusterData;
  isReEmbedding : bool;
  updateCounter : Z;
  toasts : list (Toast Invocation)
}.

Definition initial (initialData : option ClusterData) : ViewState :=
  {| selectedFolderId := None;
     clusterData := initialData;
     isReEmbedding := false;
     updateCounter := 0;
     toasts := [] |}.

Definition setSelectedFolderId (x : option string) (v : ViewState) :=
  {| selectedFolderId := x; clusterData := clusterData v;
     isReEmbedding := isReEmbedding v; updateCounter := updateCounter v;
     toasts := toasts v |}.

Definition setClusterData (x : option ClusterData) (v : ViewState) :=
  {| selectedFolderId := selectedFolderId v; clusterData := x;
     isReEmbedding := isReEmbedding v; updateCounter := updateCounter v;
     toasts := toasts v |}.

Definition setIsReEmbedding (x : bool) (v : ViewState) :=
  {| selectedFolderId := selectedFolderId v; clusterData := clusterData v;
     isReEmbedding := x; updateCounter := updateCounter v;
     toasts := toasts v |}.

Definition setUpdateCounter (f : Z -> Z) (v : ViewState) :=
  {| selectedFolderId := selectedFolderId v; clusterData := clusterData v;
     isReEmbedding := isReEmbedding v;
     updateCounter := f (updateCounter v); toasts := toasts v |}.

Definition setToasts
           (f : list (Toast Invocation) -> list (Toast Invocation))
           (v : ViewState) :=
  {| selectedFolderId := selectedFolderId v; clusterData := clusterData v;
     isReEmbedding := isReEmbedding v; updateCounter := updateCounter v;
     toasts := f (toasts v) |}.

(** [handleFolderSelect] *)
Definition handleFolderSelect (folderId : string) (v : ViewState) :=
  setSelectedFolderId
    (match selectedFolderId v with
     | Some s => if String.eqb s folderId then None else Some folderId
     | None => Some folderId
     end) v.

(** [handleFolderDrop] up to its [await]: the new state and whether
    [apiClient.reEmbedDocument(documentId, targetFolderId)] was called. *)
Definition handleFolderDrop_enter (inv : Invocation) (fresh : string)
           (v : ViewState) : ViewState * bool :=
  if inv_isReEmbedding inv then
    (setToasts
       (showError fresh
          (Some (JStr "Please wait for the current operation to complete"))
          None) v,
     false)
  else
    (setIsReEmbedding true v, true).

(** [handleFolderDrop] from the moment the awaited call settles. [now] is
    [new Date().toISOString()], [fresh] the id of the toast it shows. *)
Definition handleFolderDrop_resume (inv : Invocation)
           (o : Settled (APIResult ReEmbedResponse))
           (now fresh : string) (v : ViewState) : ViewState :=
  let retry :=
    Some {| err_canRetry := Some true; err_onRetry := Some inv |} in
  let v1 :=
    match o with
    | Fulfilled (Success d) =>
        let newClusterData :=
          {| folders := folders (updated_clusters d);
             documents := documents (updated_clusters d);
             timestamp := now |} in
        setToasts
          (showSuccess fresh (Some (JStr "Document moved successfully!"))
                       None)
          (setUpdateCounter (fun prev => prev + 1)
             (setClusterData (Some newClusterData)
                (setSelectedFolderId None v)))
    | Fulfilled (Failure e) =>
        setToasts
          (showError fresh
             (or_else (detail e) (Some (JStr "Failed to move document")))
             retry) v
    | Rejected err =>
        let errorMessage :=
          match err with
          | ErrorObj _ m => m
          | NonError => "An unexpected error occurred"
          end in
        setToasts (showError fresh (Some (JStr errorMessage)) retry) v
    end in
  (* finally *)
  setIsReEmbedding false v1.

(** The component together with the calls of [apiClient.reEmbedDocument]
    it is waiting for, and every [(documentId, targetFolderId)] it has
    requested so far. *)
Record System : Type := mkSystem {
  view : ViewState;
  inflight : list Invocation;
  issued : list (jsval * string)
}.

Definition start (initialData : option ClusterData) : System :=
  {| view := initial initialData; inflight := []; issued := [] |}.

Definition invoke (inv : Invocation) (fresh : string) (s : System)
  : System :=
  let '(v, called) := handleFolderDrop_enter inv fresh (view s) in
  if called then
    {| view := v;
       inflight := inflight s ++ [inv];
       issued := issued s
                 ++ [(inv_documentId inv, inv_targetFolderId inv)] |}
  else
    {| view := v; inflight := inflight s; issued := issued s |}.

Fixpoint remove_nth {A} (n : nat) (l : list A) : list A :=
  match l, n with
  | [], _ => []
  | _ :: rest, O => rest
  | x :: rest, S n' => x :: remove_nth n' rest
  end.

Inductive UIEvent : Type :=
(** the sidebar calls the [onFolderDrop] it was last rendered with *)
| FolderDrop (targetFolderId : string) (documentId : jsval)
             (fresh : string)
(** the Retry button of the toast [toast] is clicked *)
| RetryClick (toast : string) (fresh : string)
(** the [n]-th pending [reEmbedDocument] call settles *)
| Settle (n : nat) (o : Settled (APIResult ReEmbedResponse))
         (now fresh : string)
(** the toast is dismissed, by its button or by its timer *)
| DismissToast (toast : string)
| FolderSelect (folderId : string).

Definition step (s : System) (e : UIEvent) : System :=
  match e with
  | FolderDrop target doc fresh =>
      invoke {| inv_isReEmbedding := isReEmbedding (view s);
                inv_targetFolderId := target;
                inv_documentId := doc |} fresh s
  | RetryClick toast fresh =>
      match find (fun t => String.eqb (id t) toast) (toasts (view s)) with
      | Some t =>
          match retry_button t with
          | Some inv =>
              (* onRetry(); onDismiss(id) *)
              let s1 := invoke inv fresh s in
              {| view := setToasts (dismissToast toast) (view s1);
                 inflight := inflight s1; issued := issued s1 |}
          | None => s
          end
      | None => s
      end
  | Settle n o now fresh =>
      match nth_error (inflight s) n with
      | Some inv =>
          {| view := handleFolderDrop_resume inv o now fresh (view s);
             inflight := remove_nth n (inflight s);
             issued := issued s |}
      | None => s
      end
  | DismissToast toast =>
      {| view := setToasts (dismissToast toast) (view s);
         inflight := inflight s; issued := issued s |}
  | FolderSelect folderId =>
      {| view := handleFolderSelect folderId (view s);
         inflight := inflight s; issued := issued s |}
  end.

Definition run (s : System) (events : list UIEvent) : System :=
  fold_left step events s.

Definition is_retry (e : UIEvent) : bool :=
  match e with RetryClick _ _ => true | _ => false end.

(** A drop on a folder of the sidebar, from the DOM event to the
    component: [FolderItem.handleDrop] decides whether [onFolderDrop] is
    called. *)
Definition drop_on_folder (JSON_parse : string -> exn + json)
           (TypeError_message : string)
           (folder : SemanticFolder) (data : string) (fresh : string)
  : list UIEvent :=
  map (fun call => FolderDrop (fst call) (snd call) fresh)
      (Sidebar.onFolderDrop_calls JSON_parse TypeError_message folder data).

(** The view has a single writer when the flag tells whether a call is
    pending and at most one is. *)
Definition single_writer (s : System) : Prop :=
  match inflight s with
  | [] => isReEmbedding (view s) = false
  | [_] => isReEmbedding (view s) = true
  | _ => False
  end.

(** "Blocks or queues", observed from outside: the drop of [documentId] on
    [targetFolderId] has been sent to the backend by the end of
    [events]. *)
Definition served (events : list UIEvent) (targetFolderId : string)
           (documentId : jsval) : Prop :=
  In (documentId, targetFolderId) (issued (run (start None) events)).

(** The ways the re-embed of [inv] fails, each with the text the user is
    owed: the client returned [{ success: false, error }], or the awaited
    call threw. *)
Inductive failed_reEmbed (client : ApiClient.LatentFSClient)
          (w : ApiClient.World) (inv : Invocation)
  : Settled (APIResult ReEmbedResponse) -> jsval -> Prop :=
| api_failure e :
    fst (ApiClient.reEmbedDocument client w (inv_documentId inv)
           (inv_targetFolderId inv)) = Failure e ->
    failed_reEmbed client w inv (Fulfilled (Failure e)) (detail e)
| threw_error name m :
    failed_reEmbed client w inv (Rejected (ErrorObj name m))
                   (Some (JStr m))
| threw_other :
    failed_reEmbed client w inv (Rejected NonError)
                   (Some (JStr "An unexpected error occurred")).

End FileSystemView.

(* ===================================================================== *)
(** ** The wire shapes, as the interface description words them *)
(* ===================================================================== *)

Module Shape.

Definition is_string (v : jsval) : Prop := exists s, v = Some (JStr s).
Definition is_number (v : jsval) : Prop := exists q, v = Some (JNum q).
Definition is_boolean (v : jsval) : Prop := exists b, v = Some (JBool b).
Definition is_string_or_null (v : jsval) : Prop :=
  v = Some JNull \/ is_string v.

(** an array whose items all satisfy [P] *)
Definition is_array_of (P : jsval -> Prop) (v : jsval) : Prop :=
  exists items, v = Some (JArr items) /\ Forall (fun x => P (Some x)) items.

(** a string-keyed record *)
Definition is_record (v : jsval) : Prop := exists props, v = Some (JObj props).

(** an object whose properties satisfy [P]; other keys are not looked at *)
Definition is_object (P : list (string * json) -> Prop) (v : jsval) : Prop :=
  exists props, v = Some (JObj props) /\ P props.

Definition Cluster_shape : jsval -> Prop :=
  is_object (fun o =>
    is_string (lookup "id" o) /\
    is_string (lookup "name" o) /\
    is_array_of is_number (lookup "centroid" o) /\
    is_array_of is_string (lookup "document_ids" o) /\
    is_string (lookup "representative_doc_id" o)).

Definition Document_shape : jsval -> Prop :=
  is_object (fun o =>
    is_string (lookup "id" o) /\
    is_string (lookup "text" o) /\
    is_array_of is_number (lookup "embedding" o) /\
    is_string_or_null (lookup "cluster_id" o) /\
    is_record (lookup "metadata" o) /\
    is_string (lookup "created_at" o) /\
    is_string (lookup "updated_at" o)).

(** [{ folders: [Cluster], documents: [Document], timestamp: string }] *)
Definition Snapshot_shape : jsval -> Prop :=
  is_object (fun o =>
    is_array_of Cluster_shape (lookup "folders" o) /\
    is_array_of Document_shape (lookup "documents" o) /\
    is_string (lookup "timestamp" o)).

(** [{ document_ids: [string], count: int }] *)
Definition Ingest_shape : jsval -> Prop :=
  is_object (fun o =>
    is_array_of is_string (lookup "document_ids" o) /\
    is_number (lookup "count" o)).

(** the four keys that [IngestResponse] of [types.ts] declares *)
Definition IngestResponse_shape : jsval -> Prop :=
  is_object (fun o =>
    is_boolean (lookup "success" o) /\
    is_array_of is_string (lookup "document_ids" o) /\
    is_number (lookup "count" o) /\
    is_string (lookup "message" o)).

(** [{ success: bool, new_cluster_id: string,
       updated_clusters: { folders, documents, timestamp } }] *)
Definition ReEmbed_shape : jsval -> Prop :=
  is_object (fun o =>
    is_boolean (lookup "success" o) /\
    is_string (lookup "new_cluster_id" o) /\
    Snapshot_shape (lookup "updated_clusters" o)).

(** [v.k] for a value that is known not to be [null]. *)
Definition prop (k : string) (v : json) : jsval :=
  match v with JObj o => lookup k o | _ => undefined end.

(** A validated document carries the [cluster_id] of the raw one. *)
Definition same_cluster_id (raw : json) (doc : Document) : Prop :=
  (prop "cluster_id" raw = Some JNull /\ doc_cluster_id doc = None) \/
  (exists s, prop "cluster_id" raw = Some (JStr s)
             /\ doc_cluster_id doc = Some s).

(** Invariant 1 of the data model, read on a validated snapshot. *)
Definition cluster_ids_resolve (d : ClusterData) : Prop :=
  forall doc, In doc (documents d) ->
    doc_cluster_id doc = None \/
    exists f, In f (folders d) /\ doc_cluster_id doc = Some (cl_id f).

End Shape.

(* ===================================================================== *)
(** ** What React does with a value placed in JSX *)
(* ===================================================================== *)

Module React.

Inductive TextNode : Type :=
| TextStr (s : string)
| TextNum (q : Q).

(** [{v}] as a child of an element: strings and numbers become text,
    [null] and booleans render nothing, an array renders its items in
    order, and a plain object makes React throw ("Objects are not valid
    as a React child"), which is [None] here. *)
Fixpoint render_child (v : json) : option (list TextNode) :=
  match v with
  | JNull => Some []
  | JBool _ => Some []
  | JNum q => Some [TextNum q]
  | JStr s => Some [TextStr s]
  | JArr items =>
      (fix render_items (l : list json) : option (list TextNode) :=
         match l with
         | [] => Some []
         | x :: rest =>
             match render_child x, render_items rest with
             | Some a, Some b => Some (a ++ b)%list
             | _, _ => None
             end
         end) items
  | JObj _ => None
  end.

(** The same for a position that may hold [undefined], which renders
    nothing. *)
Definition render (v : jsval) : option (list TextNode) :=
  match v with
  | Some j => render_child j
  | None => Some []
  end.

End React.

(* ===================================================================== *)
(** ** [components/Toast.tsx] and [ErrorDisplay] of [app/page.tsx],
       what they put on the screen *)
(* ===================================================================== *)

Module Screen.

(** [<p>{message}</p>] of [ToastItem]; [None] when rendering throws. *)
Definition message_paragraph {R} (t : UseToast.Toast R)
  : option (list React.TextNode) :=
  React.render (UseToast.message t).

Record ErrorShown : Type := mkErrorShown {
  detail_paragraph : list React.TextNode;
  status_line : option Z
}.

(** [ErrorDisplay]: [<p>{error.detail}</p>] and, under
    [error.status > 0 &&], the line [Status: {error.status}]; [None]
    when rendering throws. *)
Definition ErrorDisplay (e : APIError) : option ErrorShown :=
  match React.render (detail e) with
  | Some text =>
      Some {| detail_paragraph := text;
              status_line := if 0 <? status e then Some (status e)
                             else None |}
  | None => None
  end.

End Screen.

(* ===================================================================== *)
(** ** [lib/api-client.ts], the rest *)
(* ===================================================================== *)

Module ApiClientRest.
Import Zod ApiClient.

Record DocumentResponse : Type := mkDocumentResponse {
  dr_documents : list Document;
  dr_count : Q
}.

Definition DocumentResponseSchema : ZodSchema DocumentResponse :=
  object (fun o =>
    ds <- field "documents" (array DocumentSchema) o ;;
    n <- field "count" number o ;;
    Some (mkDocumentResponse ds n)).

(** [{ documents: [Document], count: number }] *)
Definition Documents_shape : jsval -> Prop :=
  Shape.is_object (fun o =>
    Shape.is_array_of Shape.Document_shape (lookup "documents" o) /\
    Shape.is_number (lookup "count" o)).

Definition getAllDocuments (this : LatentFSClient) (w : World) :=
  request this w "/documents"
    {| method := "GET"; body := None |}
    DocumentResponseSchema.

(** [healthCheck]: one [fetch] of [`${baseURL}/`], outside the retry
    loop; any exception gives [false]. *)
Definition healthCheck (this : LatentFSClient) (w : World) : bool :=
  match fetch w 0 (baseURL this ++ "/")
              {| method := "GET"; body := None |} with
  | Resolves r => ok r
  | Rejects _ => false
  end.

(** [s] ends with a slash. *)
Fixpoint ends_with_slash (s : String.string) : bool :=
  match s with
  | EmptyString => false
  | String c EmptyString => Ascii.eqb c "/"%char
  | String _ rest => ends_with_slash rest
  end.

(** The outcomes of an attempt after which the loop goes round again
    while attempts remain: a rejected [fetch]; an OK response whose body
    is not JSON; a response that is not OK and either is not a 4xx or
    carries the JSON [null]. *)
Definition transient (o : FetchOutcome) : bool :=
  match o with
  | Rejects _ => true
  | Resolves r =>
      if ok r then
        match resp_json r with inl _ => true | inr _ => false end
      else
        match resp_json r with
        | inr JNull => true
        | _ => negb ((400 <=? resp_status r) && (resp_status r <? 500))
        end
  end.

(** The log of a call that starts at attempt [a] and makes [k] further
    attempts: before each of those it sleeps [retryDelay * 2 ^ attempt]. *)
Fixpoint schedule (this : LatentFSClient) (u : String.string)
         (a : Z) (k : nat) : list Event :=
  match k with
  | O => [EvFetch a u]
  | S k' =>
      EvFetch a u :: EvSleep (retryDelay this * 2 ^ a)
        :: schedule this u (a + 1) k'
  end.

(** The milliseconds a log spends asleep. *)
Fixpoint slept (log : list Event) : Z :=
  match log with
  | [] => 0
  | EvSleep ms :: rest => ms + slept rest
  | EvFetch _ _ :: rest => slept rest
  end.

(** The status of an error is 0 or that of a response that was not OK. *)
Definition failure_status (e : APIError) : Prop :=
  status e = 0 \/ (200 <=? status e) && (status e <=? 299) = false.

End ApiClientRest.

(** More sample environments. *)
Module SampleRest.
Import ApiClient.

(** A backend that times out twice and then answers. *)
Definition flaky (b : json) : World :=
  {| fetch := fun attempt _ _ =>
       if attempt <? 2
       then Rejects (ErrorObj "AbortError" "The operation was aborted.")
       else Resolves {| resp_status := 200; resp_statusText := "OK";
                        resp_json := inr b |};
     ZodError_message := fun _ => "[ ... ]";
     TypeError_message :=
       "Cannot read properties of null (reading 'detail')" |}.

Definition get_init : RequestInit := {| method := "GET"; body := None |}.

(** The [detail] of the validation error FastAPI answers with status 422
    when [document_id] is missing from the body. *)
Definition validation_detail : json :=
  JArr [JObj [("loc", JArr [JStr "body"; JStr "document_id"]);
              ("msg", JStr "field required");
              ("type", JStr "value_error.missing")]].

Definition validation_error_json : json :=
  JObj [("detail", validation_detail)].

End SampleRest.

(* ===================================================================== *)
(** ** [hooks/useClusterData.ts] over time, and [app/page.tsx] *)
(* ===================================================================== *)

Module Home.
Import UseClusterData.

(** What happens to the hook: a [fetchData] starts (mount, refresh or
    interval), or a pending [apiClient.getClusters()] settles. *)
Inductive HookEvent : Type :=
| Begin
| Resume (o : Settled (APIResult ClusterData)).

Definition hook_step (st : State) (e : HookEvent) : State :=
  match e with
  | Begin => fetchData_begin st
  | Resume o => fetchData_resume o st
  end.

Definition hook_run (st : State) (events : list HookEvent) : State :=
  fold_left hook_step events st.

(** The snapshot of the last successful fetch among [events], or
    [previous] when there is none. *)
Fixpoint last_success (events : list HookEvent)
         (previous : option ClusterData) : option ClusterData :=
  match events with
  | [] => previous
  | Resume (Fulfilled (Success d)) :: rest => last_success rest (Some d)
  | _ :: rest => last_success rest previous
  end.

(** What [Home] renders. *)
Inductive Page : Type :=
| LoadingSpinner
| ErrorDisplay (e : APIError)
| EmptyState_no_data
| ShowFileSystemView (initialData : ClusterData).

(** [Home]: the four [return]s in their order. *)
Definition Home (st : State) : Page :=
  let no_data := match data st with Some _ => false | None => true end in
  if loading st && no_data then LoadingSpinner
  else
    match error st, data st with
    | Some e, None => ErrorDisplay e
    | _, None => EmptyState_no_data
    | _, Some d => ShowFileSystemView d
    end.

End Home.

(* ===================================================================== *)
(** ** [components/EmptyState.tsx] *)
(* ===================================================================== *)

Module EmptyStateView.

Record Config : Type := mkConfig {
  cfg_title : string;
  cfg_description : string;
  cfg_tip : option string
}.

Definition configs (ty : GridView.EmptyStateType) : Config :=
  match ty with
  | GridView.no_documents =>
      {| cfg_title := "No Documents Found";
         cfg_description :=
           "Get started by ingesting documents into the system. They will be automatically organized into semantic folders.";
         cfg_tip := Some "Use the /ingest API endpoint to add documents" |}
  | GridView.no_folders =>
      {| cfg_title := "No Folders Yet";
         cfg_description :=
           "Folders will appear here once documents are clustered. Add some documents to get started.";
         cfg_tip := None |}
  | GridView.no_data =>
      {| cfg_title := "No Data Available";
         cfg_description :=
           "The system has no documents or clusters to display. Start by ingesting some documents.";
         cfg_tip := None |}
  | GridView.folder_empty =>
      {| cfg_title := "This Folder is Empty";
         cfg_description :=
           "This semantic folder doesn't contain any documents yet. Try dragging documents here to organize them.";
         cfg_tip := None |}
  end.

Record Props : Type := mkProps {
  p_type : GridView.EmptyStateType;
  p_title : option string;
  p_description : option string;
  p_action : option string
}.

Record Shown : Type := mkShown {
  displayTitle : string;
  displayDescription : string;
  tip : option string;
  action_button : option string
}.

(** [a || b] on an optional string. *)
Definition or_string (a : option string) (b : string) : string :=
  match a with
  | Some s => if truthy_string s then s else b
  | None => b
  end.

(** [EmptyState]; [p_action] is the label of the action, when given. The
    tip is rendered under [config.tip &&], so an empty tip would not
    show. *)
Definition EmptyState (p : Props) : Shown :=
  let config := configs (p_type p) in
  {| displayTitle := or_string (p_title p) (cfg_title config);
     displayDescription :=
       or_string (p_description p) (cfg_description config);
     tip := match cfg_tip config with
            | Some t => if truthy_string t then Some t else None
            | None => None
            end;
     action_button := p_action p |}.

(** The placeholder as [GridView] asks for it: the type only. *)
Definition of_type (ty : GridView.EmptyStateType) : Shown :=
  EmptyState {| p_type := ty; p_title := None; p_description := None;
                p_action := None |}.

End EmptyStateView.

(* ===================================================================== *)
(** ** [components/DocumentCardNative.tsx] *)
(* ===================================================================== *)

Module DocumentCard.

(** [docPreview]; a string is its sequence of code units. *)
Definition docPreview (doc : Document) : string :=
  if (150 <? String.length (doc_text doc))%nat
  then String.substring 0 150 (doc_text doc) ++ "..."
  else doc_text doc.

(** [{doc.id.substring(0, 8)}...] *)
Definition idPreview (doc : Document) : string :=
  String.substring 0 8 (doc_id doc) ++ "...".

(** What [handleDragStart] publishes: the text stored under
    [application/json] and the [detail] of the [document-drag-active]
    event. *)
Record DragStart : Type := mkDragStart {
  transfer_data : string;
  detail_sourceFolderId : option string
}.

Definition handleDragStart (JSON_stringify : json -> string)
           (doc : Document) : DragStart :=
  {| transfer_data := JSON_stringify (Sidebar.drag_payload doc);
     detail_sourceFolderId := doc_cluster_id doc |}.

End DocumentCard.

(* ===================================================================== *)
(** ** [components/Sidebar.tsx], the rest *)
(* ===================================================================== *)

Module SidebarRest.
Import Sidebar.

(** The [useState] cells of a [FolderItem]. *)
Record ItemState : Type := mkItemState {
  dragOver : bool;
  canAcceptDrop : bool
}.

(** The state after the [setDragOver] / [setCanAcceptDrop] calls among
    [effects]. *)
Fixpoint after_effects (effects : list Effect) (st : ItemState)
  : ItemState :=
  match effects with
  | [] => st
  | setDragOver b :: rest =>
      after_effects rest {| dragOver := b;
                            canAcceptDrop := canAcceptDrop st |}
  | setCanAcceptDrop b :: rest =>
      after_effects rest {| dragOver := dragOver st; canAcceptDrop := b |}
  | _ :: rest => after_effects rest st
  end.

Section FolderItem.

Variable JSON_parse : string -> exn + json.
Variable TypeError_message : string.

(** [FolderItem.handleDragOver]; [data] is
    [e.dataTransfer.getData('application/json')], which browsers leave
    empty during a dragover. *)
Definition handleDragOver (folder : SemanticFolder) (data : string)
           (st : ItemState) : ItemState :=
  let caught := {| dragOver := true; canAcceptDrop := true |} in
  if truthy_string data then
    match JSON_parse data with
    | inl _ => caught
    | inr parsed =>
        match get TypeError_message parsed "sourceFolderId" with
        | inl _ => caught
        | inr sourceFolderId =>
            let canDrop :=
              negb (strict_eq_string sourceFolderId (sf_id folder)) in
            {| dragOver := if canDrop then true else dragOver st;
               canAcceptDrop := canDrop |}
        end
    end
  else st.

(** The state of the item after [handleDrop]. *)
Definition handleDrop_state (folder : SemanticFolder) (data : string)
           (st : ItemState) : ItemState :=
  after_effects (handleDrop JSON_parse TypeError_message folder data) st.

End FolderItem.

(** [Sidebar]: the cell [dragSourceFolderId], set from the [detail] of
    [document-drag-active] and cleared by [document-drag-inactive]. *)
Definition handleDragActive (detail_sourceFolderId : option string)
  : option string := detail_sourceFolderId.

Definition handleDragInactive : option string := None.

(** [isDragActive={dragSourceFolderId !== null}] *)
Definition isDragActive (dragSourceFolderId : option string) : bool :=
  match dragSourceFolderId with Some _ => true | None => false end.

(** [canAcceptDrag={dragSourceFolderId !== null &&
                    dragSourceFolderId !== folder.id}] *)
Definition canAcceptDrag (dragSourceFolderId : option string)
           (folder : SemanticFolder) : bool :=
  match dragSourceFolderId with
  | Some s => negb (String.eqb s (sf_id folder))
  | None => false
  end.

End SidebarRest.

(* ===================================================================== *)
(** ** [components/FileSystemView.tsx], the rest *)
(* ===================================================================== *)

Module FileSystemViewRest.
Import FileSystemView.

Definition colors : list string :=
  ["#3b82f6"; "#10b981"; "#f59e0b"; "#ef4444";
   "#8b5cf6"; "#ec4899"; "#06b6d4"; "#f97316"].

(** [generateFolderColor]: [colors[index % colors.length]]; reading past
    the end of the array would give [undefined]. *)
Definition generateFolderColor (index : nat) : option string :=
  nth_error colors (index mod List.length colors).

(** [clusterData?.folders.map((cluster, index) => ...) || []] *)
Fixpoint folders_from (index : nat) (clusters : list Cluster)
  : list SemanticFolder :=
  match clusters with
  | [] => []
  | cluster :: rest =>
      {| sf_id := cl_id cluster;
         sf_name := cl_name cluster;
         sf_documentCount := List.length (cl_document_ids cluster);
         sf_color := match generateFolderColor index with
                     | Some c => c
                     | None => ""
                     end;
         sf_representativeDocId := cl_representative_doc_id cluster |}
      :: folders_from (S index) rest
  end.

Definition folders_of (v : ViewState) : list SemanticFolder :=
  match clusterData v with
  | Some d => folders_from 0 (folders d)
  | None => []
  end.

Definition documents_of (v : ViewState) : list Document :=
  match clusterData v with
  | Some d => documents d
  | None => []
  end.

(** The effect that validates the selection:
    [if (selectedFolderId && folders.length > 0)
       if (!folders.some(f => f.id === selectedFolderId))
         setSelectedFolderId(null)]. *)
Definition validate_selection (v : ViewState) : ViewState :=
  match selectedFolderId v with
  | Some s =>
      if truthy_string s
         && negb (Nat.eqb (List.length (folders_of v)) 0)
      then
        if existsb (fun f => String.eqb (sf_id f) s) (folders_of v)
        then v
        else setSelectedFolderId None v
      else v
  | None => v
  end.

(** What the component hands to [GridView]. *)
Definition grid (v : ViewState) : GridView.Rendered :=
  GridView.GridView (documents_of v) (selectedFolderId v).

(** The snapshot is consistent for [cluster]: its [document_ids] are,
    without repetition, the ids of the documents whose [cluster_id] is
    its [id], and document ids are unique. *)
Definition consistent_cluster (d : ClusterData) (cluster : Cluster)
  : Prop :=
  NoDup (cl_document_ids cluster)
  /\ NoDup (map doc_id (documents d))
  /\ forall i, In i (cl_document_ids cluster) <->
               exists doc, In doc (documents d)
                           /\ doc_id doc = i
                           /\ doc_cluster_id doc = Some (cl_id cluster).

(** Every [onRetry] kept in a toast is a call of a handler whose render
    had [isReEmbedding = false]. *)
Definition retries_pass_guard (s : System) : Prop :=
  forall t inv, In t (toasts (view s)) ->
                UseToast.onRetry t = Some inv ->
                inv_isReEmbedding inv = false.

(** The overlay is up only while a call is pending. *)
Definition overlay_has_cause (s : System) : Prop :=
  isReEmbedding (view s) = true -> inflight s <> [].

(** Every pending call and every stored retry belongs to a handler that
    passed its guard. *)
Definition guards_passed (s : System) : Prop :=
  retries_pass_guard s
  /\ forall inv, In inv (inflight s) -> inv_isReEmbedding inv = false.

End FileSystemViewRest.

(* ===================================================================== *)
(** * Lemmas and theorems *)
(* ===================================================================== *)

(** ** Zod combinators *)

Section ZodFacts.
Import Zod Shape.

Lemma accepted_string v : accepted Zod.string v <-> is_string v.
Proof.
  unfold accepted, is_string, Zod.string. split.
  - intros [t H]. destruct v as [[]|]; try discriminate. eauto.
  - intros [s ->]. eauto.
Qed.

Lemma accepted_number v : accepted number v <-> is_number v.
Proof.
  unfold accepted, is_number, number. split.
  - intros [t H]. destruct v as [[]|]; try discriminate. eauto.
  - intros [s ->]. eauto.
Qed.

Lemma accepted_boolean v : accepted boolean v <-> is_boolean v.
Proof.
  unfold accepted, is_boolean, boolean. split.
  - intros [t H]. destruct v as [[]|]; try discriminate. eauto.
  - intros [s ->]. eauto.
Qed.

Lemma accepted_nullable_string v :
  accepted (nullable Zod.string) v <-> is_string_or_null v.
Proof.
  unfold accepted, is_string_or_null, is_string, nullable, Zod.string, bind.
  split.
  - intros [t H]. destruct v as [[]|]; try discriminate; eauto.
  - intros [-> | [s ->]]; eauto.
Qed.

Lemma traverse_some {A B} (f : A -> option B) l :
  (exists ys, traverse f l = Some ys) <->
  Forall (fun x => exists y, f x = Some y) l.
Proof.
  induction l as [|x l IH]; simpl.
  - split; eauto.
  - split.
    + intros [ys H]. destruct (f x) eqn:Hx; try discriminate.
      destruct (traverse f l) eqn:Hl; try discriminate.
      constructor; eauto. apply IH. eauto.
    + intros H. inversion H as [|? ? [y Hy] Hl]; subst.
      apply IH in Hl. destruct Hl as [ys Hys].
      rewrite Hy, Hys. eauto.
Qed.

Lemma accepted_array {T} (s : ZodSchema T) (P : jsval -> Prop) v :
  (forall x, accepted s x <-> P x) ->
  accepted (array s) v <-> is_array_of P v.
Proof.
  intros HP. unfold accepted at 1, is_array_of, array. split.
  - intros [t H]. destruct v as [[]|]; try discriminate.
    exists items. split; [reflexivity|].
    assert (Hs : exists ys, traverse (fun x => s (Some x)) items = Some ys)
      by eauto.
    apply traverse_some in Hs.
    eapply Forall_impl; [|exact Hs]. intros a Ha. apply HP. exact Ha.
  - intros [items [-> H]]. apply traverse_some.
    eapply Forall_impl; [|exact H]. intros a Ha. apply HP. exact Ha.
Qed.

Lemma accepted_record v : accepted record_string_any v <-> is_record v.
Proof.
  unfold accepted, is_record, record_string_any. split.
  - intros [t H]. destruct v as [[]|]; try discriminate. eauto.
  - intros [props ->]. apply traverse_some.
    apply Forall_forall. intros kv _. simpl. eauto.
Qed.

Lemma accepted_object {T} (shape : list (String.string * json) -> option T)
      (P : list (String.string * json) -> Prop) v :
  (forall o, (exists t, shape o = Some t) <-> P o) ->
  accepted (object shape) v <-> is_object P v.
Proof.
  intros HP. unfold accepted, is_object, object. split.
  - intros [t H]. destruct v as [[]|]; try discriminate.
    exists props. split; [reflexivity|]. apply HP. eauto.
  - intros [props [-> H]]. apply HP. exact H.
Qed.

(** One step of a shape: the field is accepted and the rest goes on. *)
Lemma bind_field {A B} (k : String.string) (s : ZodSchema A)
      (rest : A -> option B) (P Q : Prop) o :
  (accepted s (lookup k o) <-> P) ->
  (forall a, (exists t, rest a = Some t) <-> Q) ->
  (exists t, bind (field k s o) rest = Some t) <-> P /\ Q.
Proof.
  intros HP HQ. unfold bind, field, accepted in *. split.
  - intros [t H]. destruct (s (lookup k o)) eqn:E; try discriminate.
    split; [apply HP | apply (HQ a)]; eauto.
  - intros [p q]. apply HP in p. destruct p as [a Ha]. rewrite Ha.
    apply (HQ a). exact q.
Qed.

Lemma bind_last {A B} (k : String.string) (s : ZodSchema A)
      (mk : A -> B) (P : Prop) o :
  (accepted s (lookup k o) <-> P) ->
  (exists t, bind (field k s o) (fun a => Some (mk a)) = Some t) <-> P.
Proof.
  intros HP. unfold bind, field, accepted in *. split.
  - intros [t H]. destruct (s (lookup k o)) eqn:E; try discriminate.
    apply HP; eauto.
  - intros p. apply HP in p. destruct p as [a Ha]. rewrite Ha. eauto.
Qed.

End ZodFacts.

(** ** The schemas of the client against the wire shapes *)

Section SchemaFacts.
Import Zod Shape ApiClient.

Lemma ClusterSchema_shape v : accepted ClusterSchema v <-> Cluster_shape v.
Proof.
  apply accepted_object. intros o.
  apply bind_field; [apply accepted_string|intros id].
  apply bind_field; [apply accepted_string|intros name].
  apply bind_field;
    [apply accepted_array, accepted_number|intros centroid].
  apply bind_field;
    [apply accepted_array, accepted_string|intros ids].
  apply bind_last. apply accepted_string.
Qed.

Lemma DocumentSchema_shape v :
  accepted DocumentSchema v <-> Document_shape v.
Proof.
  apply accepted_object. intros o.
  apply bind_field; [apply accepted_string|intros id].
  apply bind_field; [apply accepted_string|intros text].
  apply bind_field;
    [apply accepted_array, accepted_number|intros embedding].
  apply bind_field; [apply accepted_nullable_string|intros cid].
  apply bind_field; [apply accepted_record|intros metadata].
  apply bind_field; [apply accepted_string|intros created].
  apply bind_last. apply accepted_string.
Qed.

Lemma ClusterDataSchema_shape v :
  accepted ClusterDataSchema v <-> Snapshot_shape v.
Proof.
  apply accepted_object. intros o.
  apply bind_field;
    [apply accepted_array, ClusterSchema_shape|intros fs].
  apply bind_field;
    [apply accepted_array, DocumentSchema_shape|intros ds].
  apply bind_last. apply accepted_string.
Qed.

Lemma ClusterResponseSchema_shape v :
  accepted ClusterResponseSchema v <-> Snapshot_shape v.
Proof. apply ClusterDataSchema_shape. Qed.

Lemma IngestResponseSchema_shape v :
  accepted IngestResponseSchema v <-> IngestResponse_shape v.
Proof.
  apply accepted_object. intros o.
  apply bind_field; [apply accepted_boolean|intros ok].
  apply bind_field;
    [apply accepted_array, accepted_string|intros ids].
  apply bind_field; [apply accepted_number|intros n].
  apply bind_last. apply accepted_string.
Qed.

Lemma ReEmbedResponseSchema_shape v :
  accepted ReEmbedResponseSchema v <-> ReEmbed_shape v.
Proof.
  apply accepted_object. intros o.
  apply bind_field; [apply accepted_boolean|intros ok].
  apply bind_field; [apply accepted_string|intros id].
  apply bind_last. apply ClusterResponseSchema_shape.
Qed.

End SchemaFacts.

(** ** [LatentFSClient.request] *)

Section RequestFacts.
Import Zod ApiClient.

Context {T : Type}.
Variable this : LatentFSClient.
Variable w : World.
Variable endpoint : String.string.
Variable options : RequestInit.
Variable schema : ZodSchema T.

Local Abbreviation the_url := (url this endpoint).
Local Abbreviation iter := (iteration this w endpoint options schema).
Local Abbreviation loop := (request_loop this w endpoint options schema).

(** An OK response with a JSON body ends the call at once: with the
    validated data, or with the error built from the [ZodError]. *)
Lemma iteration_ok attempt r data :
  fetch w attempt the_url options = Resolves r ->
  ok r = true ->
  resp_json r = inr data ->
  iter attempt =
    Return (match schema (Some data) with
            | Some validated => Success validated
            | None => Failure (invalid_format w data)
            end).
Proof.
  intros Hf Hok Hj. unfold iteration, try_block.
  rewrite Hf, Hok, Hj. simpl.
  destruct (schema (Some data)); reflexivity.
Qed.

Lemma request_first_ok r data :
  0 <= maxRetries this ->
  fetch w 0 the_url options = Resolves r ->
  ok r = true ->
  resp_json r = inr data ->
  request this w endpoint options schema =
    (match schema (Some data) with
     | Some validated => Success validated
     | None => Failure (invalid_format w data)
     end, [EvFetch 0 the_url]).
Proof.
  intros Hm Hf Hok Hj. unfold request.
  destruct (Z.to_nat (maxRetries this + 1)) eqn:E; [lia|].
  simpl. rewrite (iteration_ok 0 r data Hf Hok Hj). reflexivity.
Qed.

(** Every error that leaves an iteration has a truthy [detail]. *)
Lemma or_else_truthy a b : truthy b = true -> truthy (or_else a b) = true.
Proof. intros H. unfold or_else. destruct (truthy a) eqn:E; assumption. Qed.

Lemma catch_block_truthy attempt error :
  ends_truthy (@catch_block T this attempt error).
Proof.
  unfold catch_block, ends_truthy, truthy_error.
  destruct error as [m|[name m|]]; simpl.
  - reflexivity.
  - destruct (String.eqb name "AbortError");
      destruct (attempt <? maxRetries this); simpl;
      auto using or_else_truthy.
  - destruct (attempt <? maxRetries this); reflexivity.
Qed.

Lemma try_block_truthy attempt :
  match try_block this w endpoint options schema attempt with
  | inl _ => True
  | inr i => ends_truthy i
  end.
Proof.
  unfold try_block, ends_truthy, truthy_error.
  destruct (fetch w attempt the_url options) as [r|ex]; [|exact I].
  destruct (negb (ok r)).
  - destruct (get _ _ "detail") as [ex|d]; [exact I|].
    destruct (if truthy d then _ else _) as [ex|dm]; [exact I|].
    destruct ((400 <=? resp_status r) && (resp_status r <? 500));
      [|destruct (attempt <? maxRetries this)];
      simpl; auto using or_else_truthy.
  - destruct (resp_json r) as [ex|data]; [exact I|].
    destruct (schema (Some data)); exact I.
Qed.

Lemma iteration_truthy attempt : ends_truthy (iter attempt).
Proof.
  unfold iteration.
  pose proof (try_block_truthy attempt) as H.
  destruct (try_block this w endpoint options schema attempt) as [c|i].
  - apply catch_block_truthy.
  - exact H.
Qed.

Lemma request_loop_truthy remaining : forall attempt lastError e,
  match lastError with Some e0 => truthy_error e0 | None => True end ->
  fst (loop remaining attempt lastError) = Failure e ->
  truthy_error e.
Proof.
  induction remaining as [|n IH]; intros attempt lastError e Hl; simpl.
  - destruct lastError; simpl; intros [= <-]; [assumption|reflexivity].
  - pose proof (iteration_truthy attempt) as Hi. unfold ends_truthy in Hi.
    destruct (iter attempt) as [[d|e0]|e0 ms]; simpl.
    + discriminate.
    + intros [= <-]. exact Hi.
    + destruct (loop n (attempt + 1) (Some e0)) as [r log] eqn:E.
      simpl. intros ->.
      apply (IH (attempt + 1) (Some e0) e Hi). rewrite E. reflexivity.
Qed.

Lemma request_failure_truthy e :
  fst (request this w endpoint options schema) = Failure e ->
  truthy_error e.
Proof. apply request_loop_truthy. exact I. Qed.

Lemma request_loop_attempts remaining : forall attempt lastError,
  (attempts (snd (loop remaining attempt lastError)) <= remaining)%nat.
Proof.
  induction remaining as [|n IH]; intros attempt lastError; simpl.
  - unfold attempts. simpl. lia.
  - destruct (iter attempt) as [r|e0 ms]; simpl.
    + unfold attempts. simpl. lia.
    + specialize (IH (attempt + 1) (Some e0)).
      destruct (loop n (attempt + 1) (Some e0)) as [r log].
      unfold attempts in *. simpl in *. lia.
Qed.

(** At most [maxRetries + 1] attempts, for a configuration with
    [maxRetries >= 0]. *)
Lemma request_attempts :
  0 <= maxRetries this ->
  (Z.of_nat (attempts (snd (request this w endpoint options schema)))
   <= maxRetries this + 1).
Proof.
  intros H. unfold request.
  pose proof (request_loop_attempts (Z.to_nat (maxRetries this + 1)) 0 None).
  lia.
Qed.

(** A 4xx response whose error body is not the JSON [null] ends the call
    at once and keeps the response's status. *)
Lemma iteration_4xx attempt r :
  fetch w attempt the_url options = Resolves r ->
  400 <= resp_status r < 500 ->
  resp_json r <> inr JNull ->
  exists e, iter attempt = Return (Failure e)
            /\ status e = resp_status r.
Proof.
  intros Hf Hs Hn. unfold iteration, try_block. rewrite Hf.
  assert (Hok : ok r = false).
  { unfold ok. apply andb_false_iff. right. lia. }
  rewrite Hok. simpl.
  assert (H4 : (400 <=? resp_status r) && (resp_status r <? 500) = true).
  { apply andb_true_iff. split; lia. }
  destruct (resp_json r) as [ex|[| | | | |]] eqn:Ej; try congruence;
    simpl; rewrite ?H4;
    repeat match goal with
           | |- context [if ?x then _ else _] => destruct x eqn:?
           end; simpl; rewrite ?H4; eauto.
Qed.

(** A response that is not OK and whose body is the JSON [null] is retried
    while attempts remain, whatever its status, 4xx included: reading
    [errorData.detail] throws. *)
Lemma iteration_null_body attempt r :
  fetch w attempt the_url options = Resolves r ->
  ok r = false ->
  resp_json r = inr JNull ->
  attempt < maxRetries this ->
  iter attempt =
    Continue {| detail := or_else (Some (JStr (TypeError_message w)))
                                  (Some (JStr "Network error"));
                status := 0 |}
             (retryDelay this * 2 ^ attempt).
Proof.
  intros Hf Hok Hj Ha. unfold iteration, try_block, catch_block.
  rewrite Hf, Hok, Hj. simpl.
  assert (Hlt : (attempt <? maxRetries this) = true) by lia.
  rewrite Hlt. reflexivity.
Qed.

(** A response that is neither OK nor 4xx, with an error body other than
    [null], is retried after [retryDelay * 2 ^ attempt] ms while attempts
    remain. *)
Lemma iteration_5xx attempt r :
  fetch w attempt the_url options = Resolves r ->
  500 <= resp_status r ->
  resp_json r <> inr JNull ->
  attempt < maxRetries this ->
  exists e, iter attempt = Continue e (retryDelay this * 2 ^ attempt)
            /\ status e = resp_status r.
Proof.
  intros Hf Hs Hn Ha. unfold iteration, try_block. rewrite Hf.
  assert (Hok : ok r = false).
  { unfold ok. apply andb_false_iff. right. lia. }
  rewrite Hok. simpl.
  assert (H4 : (400 <=? resp_status r) && (resp_status r <? 500) = false).
  { apply andb_false_iff. right. lia. }
  assert (Hlt : (attempt <? maxRetries this) = true) by lia.
  destruct (resp_json r) as [ex|[| | | | |]] eqn:Ej; try congruence;
    simpl; rewrite ?H4, ?Hlt;
    repeat match goal with
           | |- context [if ?x then _ else _] => destruct x eqn:?
           end; simpl; rewrite ?H4, ?Hlt; eauto.
Qed.

(** A rejected [fetch] (network error, timeout) is retried likewise. *)
Lemma iteration_rejected attempt ex :
  fetch w attempt the_url options = Rejects ex ->
  attempt < maxRetries this ->
  exists e, iter attempt = Continue e (retryDelay this * 2 ^ attempt)
            /\ status e = 0.
Proof.
  intros Hf Ha. unfold iteration, try_block, catch_block. rewrite Hf.
  assert (Hlt : (attempt <? maxRetries this) = true) by lia.
  rewrite Hlt. destruct ex as [name m|]; [destruct (String.eqb _ _)|];
    eauto.
Qed.

End RequestFacts.

(** ** The client methods on a 200 response *)

Section Http200.
Import Zod Shape ApiClient.

Lemma apiClient_maxRetries browser env_url :
  maxRetries (apiClient browser env_url) = 3.
Proof. reflexivity. Qed.

Lemma status_200_ok r : resp_status r = 200 -> ok r = true.
Proof. intros H. unfold ok. rewrite H. reflexivity. Qed.

(** On a 200 response with JSON body [b], a call through [apiClient]
    succeeds exactly when the schema accepts [b]; otherwise it fails at
    once with the [ZodError] turned into an [APIError] of status 0. *)
Lemma apiClient_request_200 {T} browser env_url w endpoint options
      (schema : ZodSchema T) r b :
  fetch w 0 (url (apiClient browser env_url) endpoint) options
    = Resolves r ->
  resp_status r = 200 ->
  resp_json r = inr b ->
  let result := request (apiClient browser env_url) w endpoint options
                        schema in
  ((exists data, fst result = Success data) <-> accepted schema (Some b))
  /\ (~ accepted schema (Some b) ->
      result = (Failure (invalid_format w b),
                [EvFetch 0 (url (apiClient browser env_url) endpoint)])).
Proof.
  intros Hf Hs Hj result. subst result.
  rewrite (request_first_ok _ _ _ _ _ r b); auto using status_200_ok.
  2:{ rewrite apiClient_maxRetries. lia. }
  unfold accepted. destruct (schema (Some b)) as [d|]; simpl; split.
  - split; eauto.
  - intros H. exfalso. eauto.
  - split; [intros [d H]; discriminate | intros [d H]; discriminate].
  - reflexivity.
Qed.

End Http200.

(** ** Claims about the wire shapes *)

Section WireClaims.
Import Zod Shape ApiClient.

(** C1. For every JSON value [v] answered with status 200,
    [apiClient.getClusters] returns [{ success: true, data }] if and only
    if [v] is an object with [folders] an array of cluster objects,
    [documents] an array of document objects and [timestamp] a string,
    each cluster and document having the keys and types of the interface
    description; other keys are ignored. *)
Theorem C1_getClusters_accepts_exactly_snapshots
        browser env_url w r (v : json) :
  fetch w 0 (url (apiClient browser env_url) "/cluster")
        {| method := "GET"; body := None |} = Resolves r ->
  resp_status r = 200 ->
  resp_json r = inr v ->
  (exists data, fst (getClusters (apiClient browser env_url) w)
                = Success data)
  <-> Snapshot_shape (Some v).
Proof.
  intros Hf Hs Hj.
  destruct (apiClient_request_200 browser env_url w "/cluster" _
              ClusterDataSchema r v Hf Hs Hj) as [H _].
  unfold getClusters. rewrite H. apply ClusterDataSchema_shape.
Qed.

Lemma C1_witness :
  (exists data,
      fst (getClusters (apiClient true None)
             (Sample.always 200 "OK" (inr Sample.snapshot_json)))
      = Success data)
  <-> Snapshot_shape (Some Sample.snapshot_json).
Proof.
  apply (C1_getClusters_accepts_exactly_snapshots true None
           (Sample.always 200 "OK" (inr Sample.snapshot_json))
           {| resp_status := 200; resp_statusText := "OK";
              resp_json := inr Sample.snapshot_json |});
    reflexivity.
Defined.

(** The validated snapshot keeps, document by document, the [cluster_id]
    of the body. *)
Lemma traverse_Forall2 {A B} (f : A -> option B) l : forall ys,
  traverse f l = Some ys -> Forall2 (fun x y => f x = Some y) l ys.
Proof.
  induction l as [|x l IH]; simpl; intros ys H.
  - injection H as <-. constructor.
  - destruct (f x) eqn:Hx; try discriminate.
    destruct (traverse f l) eqn:Hl; try discriminate.
    injection H as <-. constructor; auto.
Qed.

Lemma DocumentSchema_cluster_id raw doc :
  DocumentSchema (Some raw) = Some doc -> same_cluster_id raw doc.
Proof.
  unfold DocumentSchema, object, same_cluster_id.
  destruct raw; try discriminate. unfold field, bind. simpl.
  repeat match goal with
         | |- context [match ?s (lookup ?k props) with _ => _ end] =>
             destruct (s (lookup k props)) eqn:?; try discriminate
         end.
  intros [= <-]. simpl.
  match goal with
  | H : nullable Zod.string _ = Some _ |- _ =>
      unfold nullable, Zod.string, bind in H;
      destruct (lookup "cluster_id" props) as [[]|]; try discriminate;
      injection H as <-; eauto
  end.
Qed.

(** C2, as the code has it. For every snapshot value the client's
    validation accepts, every document's [cluster_id] is either null or a
    string, taken unchanged from the response body; the validation does
    not compare it with the ids of the folders. *)
Theorem C2_accepted_cluster_id_is_null_or_string (v : json) d :
  ClusterDataSchema (Some v) = Some d ->
  exists raw_docs,
    prop "documents" v = Some (JArr raw_docs)
    /\ Forall2 same_cluster_id raw_docs (documents d).
Proof.
  unfold ClusterDataSchema, object.
  destruct v; try discriminate. unfold field, bind. simpl.
  destruct (array ClusterSchema (lookup "folders" props)) eqn:Hfs;
    try discriminate.
  destruct (array DocumentSchema (lookup "documents" props)) as [ds|]
    eqn:Hds; try discriminate.
  destruct (Zod.string (lookup "timestamp" props)); try discriminate.
  intros [= <-]. simpl.
  unfold array in Hds.
  destruct (lookup "documents" props) as [[]|]; try discriminate.
  exists items. split; [reflexivity|].
  apply traverse_Forall2 in Hds.
  eapply Forall2_impl; [|exact Hds].
  intros raw doc H. apply DocumentSchema_cluster_id. exact H.
Qed.

Lemma C2_witness :
  exists raw_docs,
    prop "documents" Sample.snapshot_json = Some (JArr raw_docs)
    /\ Forall2 same_cluster_id raw_docs
         [mkDocument "d0" "quantum" [1%Q; 0%Q] (Some "c0")
            [("source", JStr "demo")]
            "2026-01-01T00:00:00" "2026-01-01T00:00:00"].
Proof.
  apply (C2_accepted_cluster_id_is_null_or_string Sample.snapshot_json
           (mkClusterData
              [mkCluster "c0" "Physics" [1%Q; 0%Q] ["d0"] "d0"]
              [mkDocument "d0" "quantum" [1%Q; 0%Q] (Some "c0")
                 [("source", JStr "demo")]
                 "2026-01-01T00:00:00" "2026-01-01T00:00:00"]
              "2026-01-01T00:00:00")).
  reflexivity.
Defined.

(** C2 as stated fails: the validation accepts a snapshot without folders
    whose document has [cluster_id = "ghost"]. *)
Lemma C2_counterexample :
  exists d,
    ClusterDataSchema (Some Sample.dangling_json) = Some d
    /\ ~ cluster_ids_resolve d.
Proof.
  eexists. split; [reflexivity|].
  intros H.
  destruct (H _ (or_introl eq_refl)) as [H0 | [f [[] _]]].
  discriminate H0.
Qed.

End WireClaims.

Section WireClaimsReEmbedIngest.
Import Zod Shape ApiClient.

(** C3. For every HTTP 200 response body [b], [apiClient.reEmbedDocument]
    returns success exactly when [b] has the shape
    [{ success: boolean, new_cluster_id: string, updated_clusters }];
    a body whose [new_cluster_id] is not a string or whose
    [updated_clusters] is not a snapshot (missing or of a wrong type) is
    answered with [{ success: false, error }], the error being
    [{ detail: "Invalid response format: ...", status: 0 }], after that
    single attempt. *)
Theorem C3_reEmbedDocument_validates_200_body
        browser env_url w documentId targetFolderId r (b : json) :
  fetch w 0 (url (apiClient browser env_url) "/re-embed")
        (reEmbed_init documentId targetFolderId) = Resolves r ->
  resp_status r = 200 ->
  resp_json r = inr b ->
  let result := reEmbedDocument (apiClient browser env_url) w
                                documentId targetFolderId in
  ((exists data, fst result = Success data) <-> ReEmbed_shape (Some b))
  /\ (~ is_string (prop "new_cluster_id" b)
      \/ ~ Snapshot_shape (prop "updated_clusters" b) ->
      result =
        (Failure {| detail := Some (JStr ("Invalid response format: "
                                          ++ ZodError_message w b));
                    status := 0 |},
         [EvFetch 0 (url (apiClient browser env_url) "/re-embed")])).
Proof.
  intros Hf Hs Hj result.
  destruct (apiClient_request_200 browser env_url w "/re-embed" _
              ReEmbedResponseSchema r b Hf Hs Hj) as [Hiff Hrej].
  split.
  - subst result. unfold reEmbedDocument. rewrite Hiff.
    apply ReEmbedResponseSchema_shape.
  - intros Hbad. apply Hrej. rewrite ReEmbedResponseSchema_shape.
    intros [o [[= ->] (_ & Hid & Hup)]]. simpl in Hbad. tauto.
Qed.

Lemma C3_witness :
  reEmbedDocument (apiClient true None)
    (Sample.always 200 "OK" (inr (JObj [("success", JBool true)])))
    (Some (JStr "d0")) "c0"
  = (Failure {| detail := Some (JStr "Invalid response format: [ ... ]");
                status := 0 |},
     [EvFetch 0 "http://localhost:9999/api/re-embed"]).
Proof.
  apply (C3_reEmbedDocument_validates_200_body true None
           (Sample.always 200 "OK" (inr (JObj [("success", JBool true)])))
           (Some (JStr "d0")) "c0"
           {| resp_status := 200; resp_statusText := "OK";
              resp_json := inr (JObj [("success", JBool true)]) |}
           (JObj [("success", JBool true)]));
    try reflexivity.
  left. intros [s H]. discriminate H.
Defined.

(** C6, as the code has it. For every JSON 200 response body [b],
    [apiClient.ingestDocuments] accepts [b] exactly when [b] is an object
    with [success] a boolean, [document_ids] an array of strings, [count]
    a number and [message] a string. *)
Theorem C6_ingestDocuments_accepts_exactly_IngestResponse
        browser env_url w texts r (b : json) :
  fetch w 0 (url (apiClient browser env_url) "/ingest")
        (ingest_init texts) = Resolves r ->
  resp_status r = 200 ->
  resp_json r = inr b ->
  (exists data, fst (ingestDocuments (apiClient browser env_url) w texts)
                = Success data)
  <-> IngestResponse_shape (Some b).
Proof.
  intros Hf Hs Hj.
  destruct (apiClient_request_200 browser env_url w "/ingest" _
              IngestResponseSchema r b Hf Hs Hj) as [H _].
  unfold ingestDocuments. rewrite H.
  apply IngestResponseSchema_shape.
Qed.

Lemma C6_witness :
  (exists data,
      fst (ingestDocuments (apiClient true None)
             (Sample.always 200 "OK" (inr Sample.ingest_full_json))
             ["quantum"]) = Success data)
  <-> IngestResponse_shape (Some Sample.ingest_full_json).
Proof.
  apply (C6_ingestDocuments_accepts_exactly_IngestResponse true None
           (Sample.always 200 "OK" (inr Sample.ingest_full_json))
           ["quantum"]
           {| resp_status := 200; resp_statusText := "OK";
              resp_json := inr Sample.ingest_full_json |});
    reflexivity.
Defined.

(** C6 as stated fails: the body [{ document_ids: ["d0"], count: 1 }] has
    the shape of the interface description and is rejected, because
    [success] and [message] are missing. *)
Lemma C6_counterexample :
  Ingest_shape (Some Sample.ingest_json)
  /\ ingestDocuments (apiClient true None)
       (Sample.always 200 "OK" (inr Sample.ingest_json)) ["quantum"]
     = (Failure {| detail := Some (JStr "Invalid response format: [ ... ]");
                   status := 0 |},
        [EvFetch 0 "http://localhost:9999/api/ingest"]).
Proof.
  split; [|reflexivity].
  exists [("document_ids", JArr [JStr "d0"]); ("count", JNum 1)].
  split; [reflexivity|]. split.
  - exists [JStr "d0"]. split; [reflexivity|].
    constructor; [exists "d0"; reflexivity | constructor].
  - exists 1%Q. reflexivity.
Qed.

End WireClaimsReEmbedIngest.

(** ** [useClusterData] *)

Section HookClaims.
Import UseClusterData.

(** C7. For every failed snapshot fetch (the call returned
    [{ success: false }] or threw), [fetchData] leaves [data] as it was,
    before and after the [await]; only [error] and [loading] change.
    [data] is replaced only by a successful fetch, and then by the
    fetched snapshot. *)
Theorem C7_failed_fetch_keeps_data (o : Settled (APIResult ClusterData))
        (st : State) :
  data (fetchData_begin st) = data st
  /\ (failed o = true ->
      data (fetchData o st) = data st
      /\ loading (fetchData o st) = false
      /\ error (fetchData o st) <> None)
  /\ (data (fetchData o st) <> data st ->
      exists d, o = Fulfilled (Success d)
                /\ data (fetchData o st) = Some d).
Proof.
  split; [reflexivity|]. split.
  - intros Hf. destruct o as [[d|e]|ex]; try discriminate; simpl;
      repeat split; discriminate.
  - intros Hd. destruct o as [[d|e]|ex]; simpl in *.
    + eauto.
    + contradiction.
    + contradiction.
Qed.

Lemma C7_witness :
  let previous :=
    {| data := Some (mkClusterData [] [] "2026-01-01T00:00:00");
       loading := false; error := None |} in
  let o := Fulfilled
             (fst (ApiClient.getClusters (ApiClient.apiClient true None)
                     Sample.unreachable)) in
  data (fetchData o previous) = data previous
  /\ loading (fetchData o previous) = false
  /\ error (fetchData o previous) <> None.
Proof.
  intros previous o.
  apply (C7_failed_fetch_keeps_data o previous). reflexivity.
Defined.

End HookClaims.

(** ** [FolderItem.handleDrop] *)

Section DropClaims.
Import Sidebar FileSystemView.

Variable JSON_parse : string -> exn + json.
Variable TypeError_message : string.

Lemma handleDrop_onDrop folder data d :
  In (onDrop d) (handleDrop JSON_parse TypeError_message folder data) ->
  exists parsed sourceFolderId,
    JSON_parse data = inr parsed
    /\ get TypeError_message parsed "documentId" = inr d
    /\ get TypeError_message parsed "sourceFolderId" = inr sourceFolderId
    /\ strict_eq_string sourceFolderId (sf_id folder) = false.
Proof.
  unfold handleDrop. intros H.
  apply in_app_or in H. destruct H as [H|H].
  { simpl in H. intuition discriminate. }
  destruct (JSON_parse data) as [ex|parsed].
  { simpl in H. intuition discriminate. }
  destruct (get TypeError_message parsed "documentId") as [ex|doc] eqn:Ed.
  { simpl in H. intuition discriminate. }
  destruct (get TypeError_message parsed "sourceFolderId") as [ex|src]
    eqn:Es.
  { simpl in H. intuition discriminate. }
  destruct (strict_eq_string src (sf_id folder)) eqn:Eq; simpl in H.
  - contradiction.
  - destruct H as [[= ->]|[]]. exists parsed, src. auto.
Qed.

(** C5. For every drop whose payload parses to an object with
    [sourceFolderId] equal to the id of the folder it is dropped on,
    [FolderItem.handleDrop] does not call [onDrop]: no call of
    [onFolderDrop] reaches the view, hence no re-embed request is issued
    and the state of the view, cluster data included, is what it was.
    [onDrop] is called only when [sourceFolderId !== folder.id]. *)
Theorem C5_drop_on_own_folder_is_noop folder data :
  (forall props,
      JSON_parse data = inr (JObj props) ->
      lookup "sourceFolderId" props = Some (JStr (sf_id folder)) ->
      (forall d, ~ In (onDrop d)
                      (handleDrop JSON_parse TypeError_message folder data))
      /\ (forall s fresh,
             run s (drop_on_folder JSON_parse TypeError_message
                                   folder data fresh) = s))
  /\ (forall d,
         In (onDrop d)
            (handleDrop JSON_parse TypeError_message folder data) ->
         exists parsed sourceFolderId,
           JSON_parse data = inr parsed
           /\ get TypeError_message parsed "sourceFolderId"
              = inr sourceFolderId
           /\ strict_eq_string sourceFolderId (sf_id folder) = false).
Proof.
  split.
  - intros props Hp Hs.
    assert (Hno : forall d,
               ~ In (onDrop d)
                    (handleDrop JSON_parse TypeError_message folder data)).
    { intros d Hin. apply handleDrop_onDrop in Hin.
      destruct Hin as (parsed & src & Hp' & _ & Hg & Hne).
      rewrite Hp in Hp'. injection Hp' as <-. simpl in Hg.
      rewrite Hs in Hg. injection Hg as <-.
      simpl in Hne. rewrite String.eqb_refl in Hne. discriminate. }
    split; [exact Hno|].
    intros s fresh. unfold drop_on_folder, onFolderDrop_calls.
    assert (E : flat_map
                  (fun e => match e with
                            | onDrop documentId =>
                                [(sf_id folder, documentId)]
                            | _ => []
                            end)
                  (handleDrop JSON_parse TypeError_message folder data)
                = []).
    { induction (handleDrop JSON_parse TypeError_message folder data)
        as [|e l IH]; [reflexivity|].
      simpl. destruct e; simpl;
        try (apply IH; intros d Hin; apply (Hno d); right; exact Hin).
      exfalso. apply (Hno documentId). left. reflexivity. }
    rewrite E. reflexivity.
  - intros d Hin. apply handleDrop_onDrop in Hin.
    destruct Hin as (parsed & src & Hp & _ & Hg & Hne). eauto.
Qed.

End DropClaims.

(** A payload as [handleDragStart] writes it, read back by a [JSON.parse]
    that knows this one text. *)
Lemma C5_witness :
  let folder := mkSemanticFolder "c0" "Physics" 1 "#3b82f6" "d0" in
  let parse := fun _ : string =>
    inr (A := exn)
        (Sidebar.drag_payload
           (mkDocument "d0" "quantum" [] (Some "c0") [] "" "")) in
  (forall d, ~ In (Sidebar.onDrop d)
                  (Sidebar.handleDrop parse "TypeError" folder "{...}"))
  /\ (forall s fresh,
         FileSystemView.run s
           (FileSystemView.drop_on_folder parse "TypeError"
              folder "{...}" fresh) = s).
Proof.
  intros folder parse.
  apply (proj1 (C5_drop_on_own_folder_is_noop parse "TypeError"
                  folder "{...}")
               [("documentId", JStr "d0"); ("sourceFolderId", JStr "c0")]);
    reflexivity.
Defined.

(** ** [GridView] *)

Section GridClaims.
Import GridView.

Lemma filter_length_le {A} (f : A -> bool) l :
  (List.length (filter f l) <= List.length l)%nat.
Proof.
  induction l as [|x l IH]; simpl; [lia|].
  destruct (f x); simpl; lia.
Qed.

(** C10, as the code has it. [GridView] renders, in their order, exactly
    the documents whose [cluster_id] equals [selectedFolderId] when
    [selectedFolderId] is a non-empty string, and all documents when it is
    null or the empty string; the displayed count is the length of that
    list, and the empty-state placeholder is shown exactly when the list
    is empty. *)
Theorem C10_GridView_renders_filtered_documents
        (docs : list Document) (selectedFolderId : option string) :
  let filtered := filteredDocuments docs selectedFolderId in
  let view := GridView docs selectedFolderId in
  (forall s, selectedFolderId = Some s -> s <> "" ->
     filtered = documents_of_folder s docs
     /\ forall d, In d filtered <->
                  In d docs /\ doc_cluster_id d = Some s)
  /\ (selectedFolderId = None \/ selectedFolderId = Some "" ->
      filtered = docs)
  /\ count view = List.length filtered
  /\ (content view = Grid filtered \/ exists ty, content view = EmptyState ty)
  /\ ((exists ty, content view = EmptyState ty) <-> filtered = []).
Proof.
  intros filtered view. subst filtered view.
  unfold GridView, filteredDocuments. simpl.
  repeat split.
  - subst. unfold selected, truthy_string.
    destruct (String.eqb_spec s ""); [contradiction|]. simpl.
    unfold documents_of_folder. apply filter_ext. intros d.
    unfold in_folder.
    destruct (doc_cluster_id d); reflexivity.
  - subst. unfold selected, truthy_string in H1.
    destruct (String.eqb_spec s ""); [contradiction|]. simpl in H1.
    apply filter_In in H1. tauto.
  - subst. unfold selected, truthy_string in H1.
    destruct (String.eqb_spec s ""); [contradiction|]. simpl in H1.
    apply filter_In in H1. destruct H1 as [_ H1]. unfold in_folder in H1.
    destruct (doc_cluster_id d) as [c|]; [|discriminate].
    apply String.eqb_eq in H1. congruence.
  - intros [Hin Hc]. subst. unfold selected, truthy_string.
    destruct (String.eqb_spec s ""); [contradiction|]. simpl.
    apply filter_In. split; [exact Hin|]. unfold in_folder.
    rewrite Hc. apply String.eqb_refl.
  - intros [-> | ->]; reflexivity.
  - destruct (Nat.eqb _ 0); eauto.
  - intros [ty H].
    destruct (List.length _) eqn:E in H; simpl in H; [|discriminate].
    apply length_zero_iff_nil. exact E.
  - intros H. rewrite H. simpl. eauto.
Qed.

Lemma C10_witness :
  let d0 := mkDocument "d0" "quantum" [] (Some "c0") [] "" "" in
  let d1 := mkDocument "d1" "pasta" [] (Some "c1") [] "" "" in
  filteredDocuments [d0; d1] (Some "c0") = [d0].
Proof.
  intros d0 d1.
  destruct (C10_GridView_renders_filtered_documents [d0; d1] (Some "c0"))
    as [H _].
  destruct (H "c0" eq_refl) as [E _]; [discriminate|].
  rewrite E. reflexivity.
Defined.

(** C10 as stated fails for the empty string: it is non-null, no document
    has [cluster_id = ""], and yet every document is rendered. *)
Lemma C10_counterexample :
  let d0 := mkDocument "d0" "quantum" [] (Some "c0") [] "" "" in
  content (GridView [d0] (Some "")) = Grid [d0]
  /\ documents_of_folder "" [d0] = []
  /\ filteredDocuments [d0] (Some "") <> documents_of_folder "" [d0].
Proof. repeat split. discriminate. Qed.

End GridClaims.

(** ** [FileSystemView.handleFolderDrop] *)

Section ViewClaims.
Import UseToast FileSystemView.

Lemma or_else_of_truthy a b : truthy a = true -> or_else a b = a.
Proof. intros H. unfold or_else. rewrite H. reflexivity. Qed.

(** C8, where the code departs from it. The backend refuses a re-embed
    whose body lacks [document_id] with status 422 and FastAPI's
    validation error, whose [detail] is an array of objects.  [request]
    returns that array as the error detail, [handleFolderDrop] hands it
    to [showError] as the message, and the toast, stored with its retry
    action, cannot be rendered: [<p>{message}</p>] makes React throw, so
    the user receives neither the detail nor the Retry button. *)
Theorem C8_validation_error_toast_cannot_be_rendered :
  let w := Sample.always 422 "Unprocessable Entity"
                         (inr SampleRest.validation_error_json) in
  let inv := mkInvocation false "c1" undefined in
  let result :=
    fst (ApiClient.reEmbedDocument (ApiClient.apiClient true None) w
           (inv_documentId inv) (inv_targetFolderId inv)) in
  let v' := handleFolderDrop_resume inv (Fulfilled result)
              "2026-01-01T00:00:00" "toast-1" (initial None) in
  result = Failure {| detail := Some SampleRest.validation_detail;
                      status := 422 |}
  /\ exists t,
       toasts v' = [t]
       /\ message t = Some SampleRest.validation_detail
       /\ retry_button t = Some inv
       /\ Screen.message_paragraph t = None.
Proof.
  split; [reflexivity|]. eexists. repeat split.
Qed.

(** Clicking Retry runs the stored call and then dismisses the toast. *)
Lemma retry_click_reinvokes s t toast fresh inv :
  find (fun t => String.eqb (id t) toast) (toasts (view s)) = Some t ->
  retry_button t = Some inv ->
  inv_isReEmbedding inv = false ->
  issued (step s (RetryClick toast fresh))
  = (issued s ++ [(inv_documentId inv, inv_targetFolderId inv)])%list.
Proof.
  intros Hf Hr Hi. simpl. rewrite Hf, Hr. unfold invoke.
  unfold handleFolderDrop_enter. rewrite Hi. reflexivity.
Qed.

(** *** One writer at a time *)

Lemma single_writer_start initialData : single_writer (start initialData).
Proof. reflexivity. Qed.

Lemma single_writer_step s e :
  is_retry e = false -> single_writer s -> single_writer (step s e).
Proof.
  unfold single_writer. intros He Hs.
  destruct e as [target doc fresh | | n o now fresh | toast | folderId];
    try discriminate; simpl.
  - unfold invoke, handleFolderDrop_enter. simpl.
    destruct (isReEmbedding (view s)) eqn:Ef; simpl;
      destruct (inflight s) as [|i [|j l]]; simpl;
      try contradiction; try discriminate; auto.
  - destruct (inflight s) as [|i [|j l]] eqn:E; try contradiction.
    + destruct n; simpl; rewrite E; exact Hs.
    + destruct n as [|n]; simpl.
      * reflexivity.
      * destruct n; simpl; rewrite E; exact Hs.
  - destruct (inflight s) as [|i [|j l]]; try contradiction; exact Hs.
  - destruct (inflight s) as [|i [|j l]]; try contradiction; exact Hs.
Qed.

Lemma single_writer_run events : forall s,
  forallb (fun e => negb (is_retry e)) events = true ->
  single_writer s -> single_writer (run s events).
Proof.
  induction events as [|e events IH]; intros s He Hs; simpl.
  - exact Hs.
  - simpl in He. apply andb_true_iff in He. destruct He as [He1 He2].
    apply IH; [exact He2|]. apply single_writer_step; [|exact Hs].
    destruct (is_retry e); [discriminate|reflexivity].
Qed.

(** C4, as the code has it. Along folder drops and settled calls (no
    Retry click), at most one re-embed request is in flight.  A folder
    drop made while one is in flight is turned away: it shows the error
    toast "Please wait for the current operation to complete", which has
    no retry action, sends nothing and leaves nothing behind that would
    send it later; the cluster data is untouched.  A drop made while
    nothing is in flight is sent at once. *)
Theorem C4_second_drop_is_rejected initialData events :
  forallb (fun e => negb (is_retry e)) events = true ->
  let s := run (start initialData) events in
  (List.length (inflight s) <= 1)%nat
  /\ (forall target doc fresh,
         inflight s <> [] ->
         let s' := step s (FolderDrop target doc fresh) in
         issued s' = issued s
         /\ inflight s' = inflight s
         /\ clusterData (view s') = clusterData (view s)
         /\ isReEmbedding (view s') = true
         /\ exists t,
              toasts (view s') = (toasts (view s) ++ [t])%list
              /\ type t = error
              /\ message t =
                 Some (JStr
                   "Please wait for the current operation to complete")
              /\ retry_button t = None)
  /\ (forall target doc fresh,
         inflight s = [] ->
         let s' := step s (FolderDrop target doc fresh) in
         issued s' = (issued s ++ [(doc, target)])%list
         /\ List.length (inflight s') = 1%nat).
Proof.
  intros He s.
  assert (Hs : single_writer s).
  { apply single_writer_run; [exact He|apply single_writer_start]. }
  unfold single_writer in Hs. split; [|split].
  - destruct (inflight s) as [|i [|j l]]; simpl; try lia; contradiction.
  - intros target doc fresh Hne. simpl.
    destruct (inflight s) as [|i [|j l]] eqn:E; try contradiction.
    unfold invoke, handleFolderDrop_enter. simpl. rewrite Hs. simpl.
    repeat split; auto. eexists. unfold showError, showToast. simpl.
    split; [reflexivity|]. repeat split.
  - intros target doc fresh Hnil. simpl.
    rewrite Hnil in Hs.
    unfold invoke, handleFolderDrop_enter. simpl. rewrite Hs. simpl.
    rewrite Hnil. split; reflexivity.
Qed.

Lemma C4_witness :
  let s := run (start None)
               [FolderDrop "c1" (Some (JStr "d0")) "toast-1"] in
  let s' := step s (FolderDrop "c2" (Some (JStr "d1")) "toast-2") in
  issued s' = issued s
  /\ inflight s' = inflight s
  /\ clusterData (view s') = clusterData (view s)
  /\ isReEmbedding (view s') = true
  /\ exists t,
       toasts (view s') = (toasts (view s) ++ [t])%list
       /\ type t = error
       /\ message t =
          Some (JStr "Please wait for the current operation to complete")
       /\ retry_button t = None.
Proof.
  intros s.
  apply (proj1 (proj2 (C4_second_drop_is_rejected None
                         [FolderDrop "c1" (Some (JStr "d0")) "toast-1"]
                         eq_refl))
               "c2" (Some (JStr "d1")) "toast-2").
  discriminate.
Defined.

(** C4 as stated fails: a drop on [c2] made while the drop on [c1] is in
    flight is neither blocked nor queued; when the first call has settled
    nothing is pending and the second drop was never sent. *)
Lemma C4_counterexample :
  let events :=
    [FolderDrop "c1" (Some (JStr "d0")) "toast-1";
     FolderDrop "c2" (Some (JStr "d1")) "toast-2";
     Settle 0 (Fulfilled (Success
                 (mkReEmbedResponse true "c1" (mkClusterData [] [] ""))))
            "2026-01-01T00:00:00" "toast-3"] in
  inflight (run (start None) events) = []
  /\ issued (run (start None) events) = [(Some (JStr "d0"), "c1")]
  /\ ~ served events "c2" (Some (JStr "d1")).
Proof.
  repeat split. unfold served. simpl.
  intros [H|[]]. discriminate H.
Qed.

(** The guard of a handler kept in a toast is the one of the render that
    made the toast: its Retry button sends a request while another one is
    in flight. *)
Example retry_click_overlaps :
  let events :=
    [FolderDrop "c1" (Some (JStr "d0")) "toast-1";
     Settle 0 (Fulfilled (Failure
                 {| detail := Some (JStr "Request timeout"); status := 0 |}))
            "2026-01-01T00:00:00" "toast-2";
     FolderDrop "c2" (Some (JStr "d1")) "toast-3";
     RetryClick "toast-2" "toast-4"] in
  List.length (inflight (run (start None) events)) = 2%nat.
Proof. reflexivity. Qed.

End ViewClaims.

(** ** The retry loop on a 4xx response without an error object *)

Section RetryClaims.
Import ApiClient.

(** C9, where the code departs from it. A 404 whose body is the JSON
    [null] is not returned at once: reading [errorData.detail] throws, the
    [catch] takes it for a network error, and the call makes all four
    attempts with the back-off delays before it fails with status 0. *)
Theorem C9_4xx_with_null_body_is_retried :
  getClusters (apiClient true None)
              (Sample.always 404 "Not Found" (inr JNull))
  = (Failure
       {| detail :=
            Some (JStr "Cannot read properties of null (reading 'detail')");
          status := 0 |},
     [EvFetch 0 "http://localhost:9999/api/cluster"; EvSleep 1000;
      EvFetch 1 "http://localhost:9999/api/cluster"; EvSleep 2000;
      EvFetch 2 "http://localhost:9999/api/cluster"; EvSleep 4000;
      EvFetch 3 "http://localhost:9999/api/cluster"]).
Proof. reflexivity. Qed.

(** The same status with an error object is returned after one attempt. *)
Example request_4xx_with_error_object :
  getClusters (apiClient true None)
              (Sample.always 404 "Not Found"
                 (inr (JObj [("detail", JStr "Not Found")])))
  = (Failure {| detail := Some (JStr "Not Found"); status := 404 |},
     [EvFetch 0 "http://localhost:9999/api/cluster"]).
Proof. reflexivity. Qed.

End RetryClaims.

(* ===================================================================== *)
(** * Further properties of the code *)
(* ===================================================================== *)

(** ** The retry loop of [request] *)

Section RetryLoop.
Import Zod ApiClient ApiClientRest.

Context {T : Type}.
Variable this : LatentFSClient.
Variable w : World.
Variable endpoint : String.string.
Variable options : RequestInit.
Variable schema : ZodSchema T.

Local Abbreviation u := (url this endpoint).
Local Abbreviation iter := (iteration this w endpoint options schema).
Local Abbreviation loop := (request_loop this w endpoint options schema).

Lemma iteration_transient a :
  transient (fetch w a u options) = true ->
  a < maxRetries this ->
  exists e, iter a = Continue e (retryDelay this * 2 ^ a).
Proof.
  intros Ht Ha. unfold iteration, try_block, catch_block.
  assert (Hlt : (a <? maxRetries this) = true) by lia.
  unfold transient in Ht.
  destruct (fetch w a u options) as [r|ex].
  - destruct (ok r); simpl.
    + destruct (resp_json r) as [ex|data]; [|discriminate].
      rewrite Hlt. destruct ex as [name m|];
        [destruct (String.eqb name "AbortError")|]; eauto.
    + destruct (resp_json r) as [ex|[| | | | |]]; simpl;
        try (rewrite Hlt; eauto; fail);
        try (apply negb_true_iff in Ht; rewrite Ht, Hlt;
             repeat match goal with
                    | |- context [if ?x then _ else _] => destruct x
                    end; simpl; rewrite ?Ht, ?Hlt; eauto).
  - rewrite Hlt. destruct ex as [name m|];
      [destruct (String.eqb name "AbortError")|]; eauto.
Qed.

Lemma iteration_settles a :
  transient (fetch w a u options) = false \/ maxRetries this <= a ->
  exists r, iter a = Return r.
Proof.
  intros H. unfold iteration, try_block, catch_block.
  assert (Hc : transient (fetch w a u options) = false
               \/ (a <? maxRetries this) = false)
    by (destruct H; [left; assumption | right; lia]).
  clear H. unfold transient in Hc.
  destruct (fetch w a u options) as [r|ex].
  - destruct (ok r); simpl.
    + destruct (resp_json r) as [ex|data].
      * destruct Hc as [Hc|Hc]; [discriminate|]. rewrite Hc.
        destruct ex as [name m|];
          [destruct (String.eqb name "AbortError")|]; eauto.
      * destruct (schema (Some data)); eauto.
    + destruct (resp_json r) as [ex|[| | | | |]]; simpl;
        repeat match goal with
               | |- context [if truthy ?x then _ else _] =>
                   destruct (truthy x)
               end; simpl;
        destruct ((400 <=? resp_status r) && (resp_status r <? 500));
        simpl in *; eauto;
        destruct Hc as [Hc|Hc]; try discriminate; rewrite Hc; eauto.
  - destruct Hc as [Hc|Hc]; [discriminate|]. rewrite Hc.
    destruct ex as [name m|];
      [destruct (String.eqb name "AbortError")|]; eauto.
Qed.

Lemma loop_schedule k : forall a lastError n,
  (forall i, (i < k)%nat ->
     transient (fetch w (a + Z.of_nat i) u options) = true
     /\ a + Z.of_nat i < maxRetries this) ->
  (transient (fetch w (a + Z.of_nat k) u options) = false
   \/ maxRetries this <= a + Z.of_nat k) ->
  exists r, iter (a + Z.of_nat k) = Return r
            /\ loop (k + S n)%nat a lastError = (r, schedule this u a k).
Proof.
  induction k as [|k IH]; intros a lastError n Hbefore Hlast.
  - replace (a + Z.of_nat 0) with a in * by lia.
    destruct (iteration_settles a Hlast) as [r Hr].
    exists r. split; [exact Hr|]. simpl. rewrite Hr. reflexivity.
  - destruct (Hbefore 0%nat) as [Ht Ha]; [lia|].
    replace (a + Z.of_nat 0) with a in * by lia.
    destruct (iteration_transient a Ht Ha) as [e He].
    destruct (IH (a + 1) (Some e) n) as [r [Hr Hl]].
    + intros i Hi. destruct (Hbefore (S i)) as [H1 H2]; [lia|].
      replace (a + 1 + Z.of_nat i) with (a + Z.of_nat (S i)) by lia.
      split; assumption.
    + replace (a + 1 + Z.of_nat k) with (a + Z.of_nat (S k)) by lia.
      exact Hlast.
    + replace (a + 1 + Z.of_nat k) with (a + Z.of_nat (S k)) in Hr by lia.
      exists r. split; [exact Hr|].
      simpl. rewrite He, Hl. reflexivity.
Qed.

(** Some attempt within the budget is the first one that settles. *)
Lemma first_settled (m : nat) :
  exists k, (k <= m)%nat
    /\ (forall i, (i < k)%nat ->
          transient (fetch w (Z.of_nat i) u options) = true)
    /\ (transient (fetch w (Z.of_nat k) u options) = false \/ k = m).
Proof.
  induction m as [|m [k (Hk & Hb & Hl)]].
  - exists 0%nat. repeat split; [lia | intros i Hi; lia | right; reflexivity].
  - destruct Hl as [Hl | ->].
    + exists k. repeat split; [lia | exact Hb | left; exact Hl].
    + destruct (transient (fetch w (Z.of_nat m) u options)) eqn:E.
      * exists (S m). repeat split; [lia| |right; reflexivity].
        intros i Hi. destruct (Nat.eq_dec i m) as [->|Hne];
          [exact E | apply Hb; lia].
      * exists m. repeat split; [lia | exact Hb | left; exact E].
Qed.

Lemma attempts_schedule k : forall a,
  attempts (schedule this u a k) = S k.
Proof.
  induction k as [|k IH]; intros a; [reflexivity|].
  specialize (IH (a + 1)). unfold attempts in *. simpl. rewrite IH.
  reflexivity.
Qed.

Lemma slept_schedule k : forall a,
  0 <= a ->
  slept (schedule this u a k)
  = retryDelay this * (2 ^ (a + Z.of_nat k) - 2 ^ a).
Proof.
  induction k as [|k IH]; intros a Ha.
  - simpl. replace (a + 0) with a by lia. lia.
  - cbn [schedule slept]. rewrite IH by lia.
    replace (a + 1 + Z.of_nat k) with (a + Z.of_nat (S k)) by lia.
    rewrite (Z.pow_add_r 2 a 1) by lia. change (2 ^ 1) with 2. lia.
Qed.

Lemma request_at_first_settled (k : nat) :
  Z.of_nat k <= maxRetries this ->
  (forall i, (i < k)%nat ->
     transient (fetch w (Z.of_nat i) u options) = true) ->
  (transient (fetch w (Z.of_nat k) u options) = false
   \/ Z.of_nat k = maxRetries this) ->
  exists r,
    iter (Z.of_nat k) = Return r
    /\ request this w endpoint options schema = (r, schedule this u 0 k).
Proof.
  intros Hk Hb Hl. unfold request.
  replace (Z.to_nat (maxRetries this + 1))
    with (k + S (Z.to_nat (maxRetries this) - k))%nat by lia.
  apply (loop_schedule k 0 None).
  - intros i Hi. simpl. split; [apply Hb; exact Hi | lia].
  - simpl. destruct Hl; [left; assumption | right; lia].
Qed.

(** X3. [request] stops at the first attempt that is not transient, or at
    attempt [maxRetries] when all before it were: it returns what that
    iteration returns, and its log is the back-off schedule up to it. *)
Theorem request_stops_at_first_settled_attempt (k : nat) :
  Z.of_nat k <= maxRetries this ->
  (forall i, (i < k)%nat ->
     transient (fetch w (Z.of_nat i) u options) = true) ->
  (transient (fetch w (Z.of_nat k) u options) = false
   \/ Z.of_nat k = maxRetries this) ->
  exists r,
    iter (Z.of_nat k) = Return r
    /\ request this w endpoint options schema = (r, schedule this u 0 k).
Proof. apply request_at_first_settled. Qed.

(** X1. With [maxRetries >= 0] the log of a call is a back-off schedule:
    attempts [0..k] in order for some [k <= maxRetries], each but the
    last followed by a sleep of [retryDelay * 2 ^ attempt] ms.  So the
    call makes between one and [maxRetries + 1] attempts and sleeps
    [retryDelay * (2 ^ k - 1)] ms in all. *)
Theorem request_log_is_backoff_schedule :
  0 <= maxRetries this ->
  exists k,
    Z.of_nat k <= maxRetries this
    /\ snd (request this w endpoint options schema) = schedule this u 0 k
    /\ attempts (snd (request this w endpoint options schema)) = S k
    /\ slept (snd (request this w endpoint options schema))
       = retryDelay this * (2 ^ Z.of_nat k - 1).
Proof.
  intros Hm.
  destruct (first_settled (Z.to_nat (maxRetries this)))
    as [k (Hk & Hb & Hl)].
  assert (Hl' : transient (fetch w (Z.of_nat k) u options) = false
                \/ Z.of_nat k = maxRetries this)
    by (destruct Hl; [left; assumption | right; lia]).
  destruct (request_at_first_settled k ltac:(lia) Hb Hl')
    as [r [_ Hr]].
  exists k. rewrite Hr. simpl.
  repeat split; [lia | apply attempts_schedule |].
  rewrite slept_schedule by lia. simpl. reflexivity.
Qed.

(** X2. A client configured with a negative [maxRetries] never calls
    [fetch]: every request fails with
    [{ detail: 'Max retries exceeded', status: 0 }]. *)
Theorem request_negative_maxRetries :
  maxRetries this < 0 ->
  request this w endpoint options schema
  = (Failure {| detail := Some (JStr "Max retries exceeded");
                status := 0 |}, []).
Proof.
  intros H. unfold request.
  replace (Z.to_nat (maxRetries this + 1)) with 0%nat by lia.
  reflexivity.
Qed.

(** X4. A 4xx answer to the first attempt whose body is not the JSON
    [null] ends the call after that one attempt.  The error keeps the
    response's status; its detail is
    [errorData.detail || errorData.message || 'Unknown error'], where a
    body that is not JSON counts as
    [{ detail: `HTTP ${status}: ${statusText}` }]. *)
Theorem request_4xx_returned_at_once r :
  0 <= maxRetries this ->
  fetch w 0 u options = Resolves r ->
  400 <= resp_status r < 500 ->
  resp_json r <> inr JNull ->
  let errorData :=
    match resp_json r with
    | inr v => v
    | inl _ =>
        JObj [("detail",
               JStr ("HTTP " ++ Z_to_string (resp_status r) ++ ": "
                     ++ resp_statusText r))]
    end in
  request this w endpoint options schema
  = (Failure
       {| detail :=
            or_else (or_else (Shape.prop "detail" errorData)
                             (Shape.prop "message" errorData))
                    (Some (JStr "Unknown error"));
          status := resp_status r |},
     [EvFetch 0 u]).
Proof.
  intros Hm Hf Hs Hn errorData. subst errorData. unfold request.
  destruct (Z.to_nat (maxRetries this + 1)) eqn:E; [lia|].
  simpl. unfold iteration, try_block. rewrite Hf.
  assert (Hok : ok r = false).
  { unfold ok. apply andb_false_iff. right. lia. }
  assert (H4 : (400 <=? resp_status r) && (resp_status r <? 500) = true).
  { apply andb_true_iff. split; lia. }
  rewrite Hok. simpl.
  destruct (resp_json r) as [ex|[| | | | |]]; try congruence;
    simpl; unfold or_else; simpl;
    repeat match goal with
           | |- context [truthy ?x] => destruct (truthy x) eqn:?
           end; simpl; rewrite ?H4; try reflexivity; try congruence.
Qed.

(** X5. When every attempt is rejected by [fetch] (network down, or the
    timer aborting it), the call makes all [maxRetries + 1] attempts with
    the back-off sleeps between them and fails with status 0 and the
    detail of the last rejection: 'Request timeout' for an [AbortError],
    else the error's message, or 'Network error' when that is empty. *)
Theorem request_fails_after_all_attempts_rejected ex :
  0 <= maxRetries this ->
  (forall i, 0 <= i < maxRetries this ->
     exists e, fetch w i u options = Rejects e) ->
  fetch w (maxRetries this) u options = Rejects ex ->
  request this w endpoint options schema
  = (Failure
       match ex with
       | ErrorObj name message =>
           if String.eqb name "AbortError"
           then {| detail := Some (JStr "Request timeout"); status := 0 |}
           else {| detail := or_else (Some (JStr message))
                                     (Some (JStr "Network error"));
                   status := 0 |}
       | NonError =>
           {| detail := Some (JStr "Unknown error occurred"); status := 0 |}
       end,
     schedule this u 0 (Z.to_nat (maxRetries this)))
  /\ attempts (snd (request this w endpoint options schema))
     = S (Z.to_nat (maxRetries this)).
Proof.
  intros Hm Hall Hlast.
  destruct (request_at_first_settled (Z.to_nat (maxRetries this)))
    as [r [Hr Hreq]].
  - lia.
  - intros i Hi. destruct (Hall (Z.of_nat i)) as [e He]; [lia|].
    rewrite He. reflexivity.
  - right. lia.
  - rewrite Hreq. simpl. rewrite attempts_schedule. split; [|reflexivity].
    f_equal. rewrite Z2Nat.id in Hr by lia.
    unfold iteration, try_block, catch_block in Hr. rewrite Hlast in Hr.
    rewrite Z.ltb_irrefl in Hr.
    destruct ex as [name m|]; [destruct (String.eqb name "AbortError")|];
      injection Hr as <-; reflexivity.
Qed.

(** X6. Transient failures are absorbed: when the first [k] attempts are
    transient and attempt [k <= maxRetries] gets an OK response whose
    JSON body the schema accepts, the call succeeds with the validated
    data after [k + 1] attempts. *)
Theorem request_recovers_after_transient_failures (k : nat) r b d :
  Z.of_nat k <= maxRetries this ->
  (forall i, (i < k)%nat ->
     transient (fetch w (Z.of_nat i) u options) = true) ->
  fetch w (Z.of_nat k) u options = Resolves r ->
  ok r = true ->
  resp_json r = inr b ->
  schema (Some b) = Some d ->
  request this w endpoint options schema
  = (Success d, schedule this u 0 k).
Proof.
  intros Hk Hb Hf Hok Hj Hs.
  destruct (request_at_first_settled k Hk Hb) as [r0 [Hr Hreq]].
  - left. rewrite Hf. simpl. rewrite Hok, Hj. reflexivity.
  - rewrite Hreq. f_equal.
    rewrite (iteration_ok this w endpoint options schema _ r b Hf Hok Hj)
      in Hr.
    rewrite Hs in Hr. injection Hr as <-. reflexivity.
Qed.

Lemma iteration_failure_status a :
  match iter a with
  | Return (Success _) => True
  | Return (Failure e) => failure_status e
  | Continue e _ => failure_status e
  end.
Proof.
  unfold iteration, try_block, catch_block, failure_status.
  destruct (fetch w a u options) as [r|ex].
  - destruct (ok r) eqn:Hok; simpl.
    + destruct (resp_json r) as [ex|data].
      * destruct ex as [name m|];
          [destruct (String.eqb name "AbortError")|];
          destruct (a <? maxRetries this); simpl; auto.
      * destruct (schema (Some data)); simpl; auto.
    + unfold ok in Hok.
      destruct (get _ _ "detail") as [ex|dd].
      * destruct ex as [name m|];
          [destruct (String.eqb name "AbortError")|];
          destruct (a <? maxRetries this); simpl; auto.
      * destruct (if truthy dd then _ else _) as [ex|dm].
        -- destruct ex as [name m|];
             [destruct (String.eqb name "AbortError")|];
             destruct (a <? maxRetries this); simpl; auto.
        -- destruct ((400 <=? resp_status r) && (resp_status r <? 500));
             [|destruct (a <? maxRetries this)]; simpl; auto.
  - destruct ex as [name m|];
      [destruct (String.eqb name "AbortError")|];
      destruct (a <? maxRetries this); simpl; auto.
Qed.

Lemma request_loop_failure_status remaining : forall a lastError e,
  match lastError with Some e0 => failure_status e0 | None => True end ->
  fst (loop remaining a lastError) = Failure e ->
  failure_status e.
Proof.
  induction remaining as [|n IH]; intros a lastError e Hl; simpl.
  - destruct lastError; simpl; intros [= <-];
      [assumption | left; reflexivity].
  - pose proof (iteration_failure_status a) as Hi.
    destruct (iter a) as [[d|e0]|e0 ms]; simpl.
    + discriminate.
    + intros [= <-]. exact Hi.
    + destruct (loop n (a + 1) (Some e0)) as [r log] eqn:E.
      simpl. intros ->.
      apply (IH (a + 1) (Some e0) e Hi). rewrite E. reflexivity.
Qed.

(** X7. Every error [request] returns has a detail that is truthy (never
    undefined, null or the empty string), and a status that is 0 or the
    status of a response that was not OK. *)
Theorem request_error_is_well_formed e :
  fst (request this w endpoint options schema) = Failure e ->
  truthy (detail e) = true
  /\ (status e = 0 \/ (200 <=? status e) && (status e <=? 299) = false).
Proof.
  intros H. split.
  - apply (request_failure_truthy this w endpoint options schema e H).
  - apply (request_loop_failure_status _ 0 None e I H).
Qed.

End RetryLoop.

Section RetryLoopWitnesses.
Import Zod ApiClient ApiClientRest.

Lemma request_stops_at_first_settled_attempt_witness :
  exists r,
    iteration (apiClient true None)
      (Sample.always 404 "Not Found"
         (inr (JObj [("detail", JStr "Not Found")])))
      "/cluster" SampleRest.get_init ClusterDataSchema 0 = Return r
    /\ request (apiClient true None)
         (Sample.always 404 "Not Found"
            (inr (JObj [("detail", JStr "Not Found")])))
         "/cluster" SampleRest.get_init ClusterDataSchema
       = (r, schedule (apiClient true None)
               "http://localhost:9999/api/cluster" 0 0).
Proof.
  apply (request_stops_at_first_settled_attempt (apiClient true None)
           (Sample.always 404 "Not Found"
              (inr (JObj [("detail", JStr "Not Found")])))
           "/cluster" SampleRest.get_init ClusterDataSchema 0%nat).
  - simpl. lia.
  - intros i Hi. lia.
  - left. reflexivity.
Defined.

Lemma request_log_is_backoff_schedule_witness :
  exists k,
    Z.of_nat k <= 3
    /\ snd (getClusters (apiClient true None) Sample.unreachable)
       = schedule (apiClient true None)
           "http://localhost:9999/api/cluster" 0 k
    /\ attempts (snd (getClusters (apiClient true None)
                        Sample.unreachable)) = S k
    /\ slept (snd (getClusters (apiClient true None) Sample.unreachable))
       = 1000 * (2 ^ Z.of_nat k - 1).
Proof.
  apply (request_log_is_backoff_schedule (apiClient true None)
           Sample.unreachable "/cluster" SampleRest.get_init
           ClusterDataSchema).
  simpl. lia.
Defined.

Lemma request_negative_maxRetries_witness :
  request (constructor {| cfg_baseURL := "http://localhost:9999/api";
                          cfg_maxRetries := Some (-1);
                          cfg_retryDelay := None;
                          cfg_timeout := None |})
          Sample.unreachable "/cluster" SampleRest.get_init
          ClusterDataSchema
  = (Failure {| detail := Some (JStr "Max retries exceeded");
                status := 0 |}, []).
Proof.
  apply (request_negative_maxRetries
           (constructor {| cfg_baseURL := "http://localhost:9999/api";
                           cfg_maxRetries := Some (-1);
                           cfg_retryDelay := None;
                           cfg_timeout := None |})).
  simpl. lia.
Defined.

Lemma request_4xx_returned_at_once_witness :
  getClusters (apiClient true None)
    (Sample.always 422 "Unprocessable Entity"
       (inr (JObj [("message", JStr "texts must not be empty")])))
  = (Failure {| detail := Some (JStr "texts must not be empty");
                status := 422 |},
     [EvFetch 0 "http://localhost:9999/api/cluster"]).
Proof.
  apply (request_4xx_returned_at_once (apiClient true None)
           (Sample.always 422 "Unprocessable Entity"
              (inr (JObj [("message", JStr "texts must not be empty")])))
           "/cluster" SampleRest.get_init ClusterDataSchema
           {| resp_status := 422;
              resp_statusText := "Unprocessable Entity";
              resp_json :=
                inr (JObj [("message",
                            JStr "texts must not be empty")]) |}).
  - simpl. lia.
  - reflexivity.
  - simpl. lia.
  - discriminate.
Defined.

Lemma request_fails_after_all_attempts_rejected_witness :
  getClusters (apiClient true None) Sample.unreachable
  = (Failure {| detail := Some (JStr "Failed to fetch"); status := 0 |},
     schedule (apiClient true None)
       "http://localhost:9999/api/cluster" 0 3)
  /\ attempts (snd (getClusters (apiClient true None) Sample.unreachable))
     = 4%nat.
Proof.
  apply (request_fails_after_all_attempts_rejected (apiClient true None)
           Sample.unreachable "/cluster" SampleRest.get_init
           ClusterDataSchema (ErrorObj "TypeError" "Failed to fetch")).
  - simpl. lia.
  - intros i Hi. eexists. reflexivity.
  - reflexivity.
Defined.

Lemma request_recovers_after_transient_failures_witness :
  exists d,
    getClusters (apiClient true None)
                (SampleRest.flaky Sample.snapshot_json)
    = (Success d,
       [EvFetch 0 "http://localhost:9999/api/cluster"; EvSleep 1000;
        EvFetch 1 "http://localhost:9999/api/cluster"; EvSleep 2000;
        EvFetch 2 "http://localhost:9999/api/cluster"]).
Proof.
  eexists.
  apply (request_recovers_after_transient_failures (apiClient true None)
           (SampleRest.flaky Sample.snapshot_json)
           "/cluster" SampleRest.get_init ClusterDataSchema 2%nat
           {| resp_status := 200; resp_statusText := "OK";
              resp_json := inr Sample.snapshot_json |}
           Sample.snapshot_json).
  - simpl. lia.
  - intros [|[|i]] Hi; try reflexivity. lia.
  - reflexivity.
  - reflexivity.
  - reflexivity.
  - reflexivity.
Defined.

Lemma request_error_is_well_formed_witness :
  truthy (Some (JStr "Failed to fetch")) = true
  /\ (0 = 0 \/ (200 <=? 0) && (0 <=? 299) = false).
Proof.
  apply (request_error_is_well_formed (apiClient true None)
           Sample.unreachable "/cluster" SampleRest.get_init
           ClusterDataSchema
           {| detail := Some (JStr "Failed to fetch"); status := 0 |}).
  reflexivity.
Defined.

End RetryLoopWitnesses.

(** ** [getAllDocuments] and the constructor *)

Section ClientRest.
Import Zod Shape ApiClient ApiClientRest.

Lemma DocumentResponseSchema_shape v :
  accepted DocumentResponseSchema v <-> Documents_shape v.
Proof.
  apply accepted_object. intros o.
  apply bind_field;
    [apply accepted_array, DocumentSchema_shape|intros ds].
  apply bind_last. apply accepted_number.
Qed.

(** X8. On a 200 response with JSON body [b], [apiClient.getAllDocuments]
    succeeds exactly when [b] is an object with [documents] an array of
    documents and [count] a number; [count] is not compared with the
    length of [documents]. *)
Theorem getAllDocuments_accepts_exactly_document_lists
        browser env_url w r (b : json) :
  fetch w 0 (url (apiClient browser env_url) "/documents")
        {| method := "GET"; body := None |} = Resolves r ->
  resp_status r = 200 ->
  resp_json r = inr b ->
  (exists data, fst (getAllDocuments (apiClient browser env_url) w)
                = Success data)
  <-> Documents_shape (Some b).
Proof.
  intros Hf Hs Hj.
  destruct (apiClient_request_200 browser env_url w "/documents" _
              DocumentResponseSchema r b Hf Hs Hj) as [H _].
  unfold getAllDocuments. rewrite H. apply DocumentResponseSchema_shape.
Qed.

Lemma getAllDocuments_accepts_exactly_document_lists_witness :
  (exists data,
      fst (getAllDocuments (apiClient true None)
             (Sample.always 200 "OK"
                (inr (JObj [("documents", JArr []);
                            ("count", JNum 7)]))))
      = Success data)
  <-> Documents_shape
        (Some (JObj [("documents", JArr []); ("count", JNum 7)])).
Proof.
  apply (getAllDocuments_accepts_exactly_document_lists true None
           (Sample.always 200 "OK"
              (inr (JObj [("documents", JArr []); ("count", JNum 7)])))
           {| resp_status := 200; resp_statusText := "OK";
              resp_json :=
                inr (JObj [("documents", JArr []);
                           ("count", JNum 7)]) |});
    reflexivity.
Defined.

Lemma remove_trailing_slash_app s :
  remove_trailing_slash (s ++ "/") = s.
Proof.
  induction s as [|c s IH]; [reflexivity|].
  simpl. destruct (s ++ "/") eqn:E.
  - destruct s; discriminate E.
  - rewrite IH. reflexivity.
Qed.

Lemma remove_trailing_slash_none s :
  ends_with_slash s = false -> remove_trailing_slash s = s.
Proof.
  induction s as [|c s IH]; [reflexivity|].
  simpl. destruct s as [|c' s'].
  - intros ->. reflexivity.
  - intros H. rewrite (IH H). reflexivity.
Qed.

(** X9. The constructor removes one trailing slash of [baseURL] and
    nothing else, so that a client built from ["b/"] and one built from
    ["b"] request the same URLs: [b] followed by the endpoint. *)
Theorem constructor_strips_one_trailing_slash b retries delay tmo endpoint :
  url (constructor {| cfg_baseURL := b ++ "/"; cfg_maxRetries := retries;
                      cfg_retryDelay := delay; cfg_timeout := tmo |})
      endpoint = b ++ endpoint
  /\ (ends_with_slash b = false ->
      url (constructor {| cfg_baseURL := b; cfg_maxRetries := retries;
                          cfg_retryDelay := delay; cfg_timeout := tmo |})
          endpoint = b ++ endpoint).
Proof.
  unfold url, constructor. simpl. split.
  - rewrite remove_trailing_slash_app. reflexivity.
  - intros H. rewrite (remove_trailing_slash_none b H). reflexivity.
Qed.

Lemma constructor_strips_one_trailing_slash_witness :
  url (constructor {| cfg_baseURL := "http://localhost:9999/api";
                      cfg_maxRetries := None; cfg_retryDelay := None;
                      cfg_timeout := None |}) "/cluster"
  = "http://localhost:9999/api/cluster".
Proof.
  apply (proj2 (constructor_strips_one_trailing_slash
                  "http://localhost:9999/api" None None None "/cluster")).
  reflexivity.
Defined.

End ClientRest.

(** ** Toasts *)

Section ToastFacts.
Import UseToast.

Context {R : Type}.

Lemma dismissToast_all_others (i : string) (toasts : list (Toast R)) :
  (forall t, In t toasts -> id t <> i) -> dismissToast i toasts = toasts.
Proof.
  induction toasts as [|t l IH]; intros H; [reflexivity|].
  simpl. destruct (String.eqb_spec (id t) i) as [E|E].
  - exfalso. apply (H t); [left; reflexivity | exact E].
  - simpl. rewrite IH; [reflexivity|].
    intros t' Hin. apply H. right. exact Hin.
Qed.

(** X10. [dismissToast] removes every toast that has the given id and no
    other, keeping the order of the rest: it goes through the list piece
    by piece, dropping a toast with that id and keeping any other where
    it stands.  Dismissing a toast just shown under an id no other toast
    has gives back the list as it was. *)
Theorem dismissToast_removes_exactly_that_id
        (i : string) (toasts : list (Toast R)) :
  (forall t, In t (dismissToast i toasts) <-> In t toasts /\ id t <> i)
  /\ (forall before after,
        toasts = (before ++ after)%list ->
        dismissToast i toasts
        = (dismissToast i before ++ dismissToast i after)%list)
  /\ (forall t : Toast R, id t = i -> dismissToast i [t] = [])
  /\ (forall t : Toast R, id t <> i -> dismissToast i [t] = [t])
  /\ (forall ty msg options,
        (forall t, In t toasts -> id t <> i) ->
        dismissToast i (showToast i ty msg options toasts) = toasts).
Proof.
  repeat split.
  - unfold dismissToast in H. apply filter_In in H. tauto.
  - unfold dismissToast in H. apply filter_In in H. destruct H as [_ H].
    apply negb_true_iff, String.eqb_neq in H. exact H.
  - intros [Hin Hne]. unfold dismissToast. apply filter_In.
    split; [exact Hin|]. apply negb_true_iff, String.eqb_neq. exact Hne.
  - intros before after ->. unfold dismissToast. apply filter_app.
  - intros t <-. unfold dismissToast. simpl. rewrite String.eqb_refl.
    reflexivity.
  - intros t Hne. unfold dismissToast. simpl.
    apply String.eqb_neq in Hne. rewrite Hne. reflexivity.
  - intros ty msg options Hfresh. unfold showToast, dismissToast.
    rewrite filter_app. simpl. rewrite String.eqb_refl. simpl.
    rewrite app_nil_r. apply dismissToast_all_others. exact Hfresh.
Qed.

(** X11. An error toast stays until dismissed exactly when it was shown
    with [canRetry]; otherwise its timer dismisses it after 7000 ms.  Its
    Retry button exists exactly when [canRetry] came with an [onRetry].
    Success and info toasts shown without a duration go after 4000 and
    5000 ms; a duration that is not positive arms no timer. *)
Theorem toast_timers (fresh : string) (msg : jsval) (toasts : list (Toast R)) :
  (forall options,
     exists t,
       showError fresh msg options toasts = (toasts ++ [t])%list
       /\ (auto_dismiss_after t = None
           <-> optional options err_canRetry = Some true)
       /\ (optional options err_canRetry <> Some true ->
           auto_dismiss_after t = Some 7000)
       /\ (forall r, retry_button t = Some r
                     <-> optional options err_canRetry = Some true
                         /\ optional options err_onRetry = Some r))
  /\ (forall d,
        exists t,
          showSuccess fresh msg d toasts = (toasts ++ [t])%list
          /\ retry_button t = None
          /\ (d = None -> auto_dismiss_after t = Some 4000)
          /\ (forall ms, d = Some ms ->
                auto_dismiss_after t = if 0 <? ms then Some ms else None))
  /\ (forall d,
        exists t,
          showInfo fresh msg d toasts = (toasts ++ [t])%list
          /\ retry_button t = None
          /\ (d = None -> auto_dismiss_after t = Some 5000)
          /\ (forall ms, d = Some ms ->
                auto_dismiss_after t = if 0 <? ms then Some ms else None)).
Proof.
  split; [|split].
  - intros options. eexists. split; [reflexivity|].
    unfold auto_dismiss_after, retry_button. simpl.
    destruct (optional options err_canRetry) as [[|]|]; simpl;
      repeat split; try congruence; try discriminate;
      try (intros [H _]; discriminate H); intros; tauto.
  - intros d. eexists. split; [reflexivity|].
    unfold auto_dismiss_after, retry_button. simpl.
    repeat split; [intros ->; reflexivity | intros ms ->; reflexivity].
  - intros d. eexists. split; [reflexivity|].
    unfold auto_dismiss_after, retry_button. simpl.
    repeat split; [intros ->; reflexivity | intros ms ->; reflexivity].
Qed.

End ToastFacts.

Lemma dismissToast_removes_exactly_that_id_witness :
  UseToast.dismissToast "toast-2"
    (UseToast.showToast (R := unit) "toast-2" UseToast.info
       (Some (JStr "hello")) None
       [UseToast.mkToast "toast-1" UseToast.success
          (Some (JStr "saved")) None None (Some 4000)])
  = [UseToast.mkToast "toast-1" UseToast.success
       (Some (JStr "saved")) None None (Some 4000)].
Proof.
  apply (proj2 (proj2 (proj2 (proj2
           (dismissToast_removes_exactly_that_id "toast-2"
              [UseToast.mkToast (R := unit) "toast-1" UseToast.success
                 (Some (JStr "saved")) None None (Some 4000)]))))).
  intros t [<-|[]]. discriminate.
Defined.

Lemma toast_timers_witness :
  exists t : UseToast.Toast unit,
    UseToast.showSuccess "toast-1" (Some (JStr "saved")) None []
    = [t]
    /\ UseToast.auto_dismiss_after t = Some 4000.
Proof.
  destruct (proj1 (proj2 (toast_timers (R := unit) "toast-1"
                            (Some (JStr "saved")) [])) None)
    as [t (H1 & _ & H3 & _)].
  exists t. split; [exact H1 | apply H3; reflexivity].
Defined.

(** ** [useClusterData] over time, and the page *)

Section HomeFacts.
Import UseClusterData Home.

Lemma hook_run_data events : forall st,
  data (hook_run st events) = last_success events (data st).
Proof.
  induction events as [|e events IH]; intros st; [reflexivity|].
  simpl. rewrite IH.
  destruct e as [|[[d|err]|ex]]; reflexivity.
Qed.

(** X12. Whatever fetches start and settle, in whatever order, the hook's
    [data] is the snapshot of the most recent successful fetch, or what
    it was before when none succeeded; failures never reset it. *)
Theorem hook_data_is_last_successful_snapshot events st :
  data (hook_run st events) = last_success events (data st).
Proof. apply hook_run_data. Qed.

Lemma last_success_some events : forall d,
  exists d', last_success events (Some d) = Some d'.
Proof.
  induction events as [|e events IH]; intros d; simpl; [eauto|].
  destruct e as [|[[d1|err]|ex]]; apply IH.
Qed.

(** X13. Once the hook holds a snapshot, the page renders
    [FileSystemView] after every later event, with the most recent
    successful snapshot: a failed refresh shows neither the spinner nor
    the error display. *)
Theorem page_keeps_showing_data st d events :
  data st = Some d ->
  exists d',
    last_success events (Some d) = Some d'
    /\ Home (hook_run st events) = ShowFileSystemView d'.
Proof.
  intros Hd. destruct (last_success_some events d) as [d' Hd'].
  exists d'. split; [exact Hd'|].
  unfold Home. rewrite hook_run_data, Hd, Hd'.
  rewrite andb_false_r.
  destruct (error (hook_run st events)); reflexivity.
Qed.

Lemma page_keeps_showing_data_witness :
  let d := mkClusterData [] [] "2026-01-01T00:00:00" in
  let st := {| data := Some d; loading := false; error := None |} in
  let events :=
    [Begin;
     Resume (Fulfilled (fst (ApiClient.getClusters
                               (ApiClient.apiClient true None)
                               Sample.unreachable)))] in
  exists d',
    last_success events (Some d) = Some d'
    /\ Home (hook_run st events) = ShowFileSystemView d'.
Proof.
  intros d st events.
  apply (page_keeps_showing_data st d events). reflexivity.
Defined.

(** X14. When the first fetch of the page fails, [Home] returns the
    error display for exactly the error of that failure: the [APIError]
    that [getClusters] returned, or, when the call threw,
    [{ detail: message, status: 0 }] for an [Error] and
    [{ detail: 'Unknown error occurred', status: 0 }] for anything else.
    An error returned by [getClusters] has a truthy detail.  When the
    detail is a string the display shows that text, and the status line
    only for a status above 0. *)
Theorem page_shows_first_failure client w fetchOnMount
        (o : Settled (APIResult ClusterData)) :
  failed o = true ->
  exists e,
    Home (fetchData o (initial fetchOnMount)) = ErrorDisplay e
    /\ (forall e0, o = Fulfilled (Failure e0) -> e = e0)
    /\ (forall name m,
          o = Rejected (ErrorObj name m) ->
          e = {| detail := Some (JStr m); status := 0 |})
    /\ (o = Rejected NonError ->
        e = {| detail := Some (JStr "Unknown error occurred");
               status := 0 |})
    /\ (o = Fulfilled (fst (ApiClient.getClusters client w)) ->
        truthy (detail e) = true)
    /\ (forall text,
          detail e = Some (JStr text) ->
          Screen.ErrorDisplay e
          = Some {| Screen.detail_paragraph := [React.TextStr text];
                    Screen.status_line :=
                      if 0 <? status e then Some (status e) else None |}).
Proof.
  intros Hf. destruct o as [[d|e]|[name m|]]; try discriminate.
  - exists e. split; [reflexivity|].
    split; [intros e0 [= <-]; reflexivity|].
    split; [discriminate|]. split; [discriminate|]. split.
    + intros [= H]. symmetry in H. unfold ApiClient.getClusters in H.
      apply request_failure_truthy in H. exact H.
    + intros text Ht. unfold Screen.ErrorDisplay. rewrite Ht. reflexivity.
  - exists {| detail := Some (JStr m); status := 0 |}.
    split; [reflexivity|]. split; [discriminate|].
    split; [intros name0 m0 [= _ <-]; reflexivity|].
    split; [discriminate|]. split; [discriminate|].
    intros text [= <-]. reflexivity.
  - exists {| detail := Some (JStr "Unknown error occurred");
              status := 0 |}.
    split; [reflexivity|]. split; [discriminate|].
    split; [discriminate|]. split; [reflexivity|].
    split; [discriminate|].
    intros text [= <-]. reflexivity.
Qed.

Lemma page_shows_first_failure_witness :
  exists e,
    Home (fetchData
            (Fulfilled (fst (ApiClient.getClusters
                               (ApiClient.apiClient true None)
                               Sample.unreachable)))
            (initial true)) = ErrorDisplay e
    /\ e = {| detail := Some (JStr "Failed to fetch"); status := 0 |}
    /\ truthy (detail e) = true
    /\ Screen.ErrorDisplay e
       = Some {| Screen.detail_paragraph := [React.TextStr "Failed to fetch"];
                 Screen.status_line := None |}.
Proof.
  destruct (page_shows_first_failure (ApiClient.apiClient true None)
              Sample.unreachable true
              (Fulfilled (fst (ApiClient.getClusters
                                 (ApiClient.apiClient true None)
                                 Sample.unreachable)))
              eq_refl) as [e (H1 & H2 & _ & _ & H5 & H6)].
  exists e. split; [exact H1|].
  assert (He : e = {| detail := Some (JStr "Failed to fetch");
                      status := 0 |}).
  { apply H2. reflexivity. }
  split; [exact He|]. split; [apply H5; reflexivity|].
  rewrite (H6 "Failed to fetch"); [rewrite He; reflexivity|].
  rewrite He. reflexivity.
Defined.

End HomeFacts.

(** ** [EmptyState] *)

Section EmptyStateFacts.
Import EmptyStateView.

Lemma or_string_nonempty a b : b <> "" -> or_string a b <> "".
Proof.
  intros Hb. unfold or_string, truthy_string.
  destruct a as [s|]; [|exact Hb].
  destruct (String.eqb_spec s ""); simpl; assumption.
Qed.

Lemma or_string_override s b : s <> "" -> or_string (Some s) b = s.
Proof.
  intros Hne. unfold or_string, truthy_string.
  destruct (String.eqb_spec s ""); [contradiction|reflexivity].
Qed.

(** X15. The placeholder never shows an empty title or description: for
    each of the two, an override that is missing or empty falls back to
    the text of the type, and a non-empty override is shown as given.
    The tip is shown for the type [no-documents] only, and the action
    button exactly when an action is given. *)
Theorem EmptyState_texts_never_empty (p : Props) :
  displayTitle (EmptyState p) <> ""
  /\ displayDescription (EmptyState p) <> ""
  /\ (forall s, p_title p = Some s -> s <> "" ->
        displayTitle (EmptyState p) = s)
  /\ (p_title p = None \/ p_title p = Some "" ->
      displayTitle (EmptyState p) = cfg_title (configs (p_type p)))
  /\ (forall s, p_description p = Some s -> s <> "" ->
        displayDescription (EmptyState p) = s)
  /\ (p_description p = None \/ p_description p = Some "" ->
      displayDescription (EmptyState p)
      = cfg_description (configs (p_type p)))
  /\ (tip (EmptyState p) <> None <-> p_type p = GridView.no_documents)
  /\ (p_type p = GridView.no_documents ->
      tip (EmptyState p)
      = Some "Use the /ingest API endpoint to add documents")
  /\ action_button (EmptyState p) = p_action p.
Proof.
  unfold EmptyState. simpl. repeat split.
  - apply or_string_nonempty. destruct (p_type p); discriminate.
  - apply or_string_nonempty. destruct (p_type p); discriminate.
  - intros s Hs Hne. rewrite Hs. apply or_string_override. exact Hne.
  - intros [-> | ->]; reflexivity.
  - intros s Hs Hne. rewrite Hs. apply or_string_override. exact Hne.
  - intros [-> | ->]; reflexivity.
  - destruct (p_type p); simpl; intros H; try reflexivity;
      exfalso; apply H; reflexivity.
  - intros ->. simpl. discriminate.
  - intros ->. reflexivity.
Qed.

Lemma EmptyState_texts_never_empty_witness :
  displayDescription
    (EmptyState {| p_type := GridView.folder_empty;
                   p_title := None;
                   p_description := Some "Drop a document here";
                   p_action := None |})
  = "Drop a document here".
Proof.
  apply (proj1 (proj2 (proj2 (proj2 (proj2 (EmptyState_texts_never_empty
           {| p_type := GridView.folder_empty;
              p_title := None;
              p_description := Some "Drop a document here";
              p_action := None |})))))
           "Drop a document here" eq_refl).
  discriminate.
Defined.

End EmptyStateFacts.

(** ** [DocumentCardNative] *)

Section CardFacts.
Import DocumentCard.

Lemma length_append (a b : string) :
  String.length (a ++ b) = (String.length a + String.length b)%nat.
Proof. induction a as [|c a IH]; simpl; [reflexivity|]. rewrite IH. reflexivity. Qed.

Lemma length_substring0 (m : nat) : forall s,
  String.length (String.substring 0 m s) = Nat.min m (String.length s).
Proof.
  induction m as [|m IH]; intros s.
  - destruct s; reflexivity.
  - destruct s as [|c s]; [reflexivity|]. simpl. rewrite IH. reflexivity.
Qed.

Lemma substring0_prefix (m : nat) : forall s,
  exists rest, s = String.substring 0 m s ++ rest.
Proof.
  induction m as [|m IH]; intros s.
  - exists s. destruct s; reflexivity.
  - destruct s as [|c s]; [exists ""; reflexivity|].
    destruct (IH s) as [rest Hr]. exists rest. simpl. rewrite <- Hr.
    reflexivity.
Qed.

(** X16. The preview of a card is the whole text when it has at most 150
    code units; otherwise it is the first 150 code units of the text
    followed by ["..."], 153 code units in all.  The preview is never
    longer than 153. *)
Theorem docPreview_is_bounded (doc : Document) :
  (String.length (docPreview doc) <= 153)%nat
  /\ ((String.length (doc_text doc) <= 150)%nat ->
      docPreview doc = doc_text doc)
  /\ ((150 < String.length (doc_text doc))%nat ->
      String.length (docPreview doc) = 153%nat
      /\ exists head rest,
           String.length head = 150%nat
           /\ doc_text doc = head ++ rest
           /\ docPreview doc = head ++ "...").
Proof.
  unfold docPreview.
  destruct (Nat.ltb_spec 150 (String.length (doc_text doc))) as [H|H].
  - assert (L : String.length (String.substring 0 150 (doc_text doc))
                = 150%nat).
    { rewrite length_substring0. lia. }
    repeat split.
    + rewrite length_append, L. simpl. lia.
    + intros H'. lia.
    + rewrite length_append, L. reflexivity.
    + destruct (substring0_prefix 150 (doc_text doc)) as [rest Hr].
      exists (String.substring 0 150 (doc_text doc)), rest.
      repeat split; [exact L | exact Hr].
  - repeat split; try lia; intros; lia.
Qed.

Lemma docPreview_is_bounded_witness :
  docPreview (mkDocument "d0" "quantum" [] None [] "" "") = "quantum".
Proof.
  apply (proj1 (proj2 (docPreview_is_bounded
                         (mkDocument "d0" "quantum" [] None [] "" "")))).
  simpl. lia.
Defined.

End CardFacts.

(** ** Dragging a card onto a folder *)

Section DragFacts.
Import Sidebar SidebarRest DocumentCard.

Variable JSON_stringify : json -> string.
Variable JSON_parse : string -> exn + json.
Variable TypeError_message : string.

Lemma calls_of_payload folder data doc :
  JSON_parse data = inr (drag_payload doc) ->
  onFolderDrop_calls JSON_parse TypeError_message folder data
  = match doc_cluster_id doc with
    | Some c => if String.eqb c (sf_id folder) then []
                else [(sf_id folder, Some (JStr (doc_id doc)))]
    | None => [(sf_id folder, Some (JStr (doc_id doc)))]
    end.
Proof.
  intros Hp. unfold onFolderDrop_calls, handleDrop. rewrite Hp.
  unfold drag_payload. simpl.
  destruct (doc_cluster_id doc) as [c|]; simpl;
    [destruct (String.eqb c (sf_id folder))|]; reflexivity.
Qed.

(** X17. From the card to the view: when the text written by
    [handleDragStart] is read back by [JSON.parse] as the object that was
    serialised, a drop on a folder calls [onFolderDrop(folder.id, doc.id)]
    once if the document's [cluster_id] is not that folder's id, and not
    at all if it is. *)
Theorem drag_then_drop_calls_onFolderDrop doc folder :
  JSON_parse (transfer_data (handleDragStart JSON_stringify doc))
    = inr (drag_payload doc) ->
  let calls :=
    onFolderDrop_calls JSON_parse TypeError_message folder
      (transfer_data (handleDragStart JSON_stringify doc)) in
  (doc_cluster_id doc = Some (sf_id folder) -> calls = [])
  /\ (doc_cluster_id doc <> Some (sf_id folder) ->
      calls = [(sf_id folder, Some (JStr (doc_id doc)))]).
Proof.
  intros Hp calls. subst calls.
  rewrite (calls_of_payload folder _ doc Hp). split.
  - intros ->. rewrite String.eqb_refl. reflexivity.
  - intros Hne. destruct (doc_cluster_id doc) as [c|]; [|reflexivity].
    destruct (String.eqb_spec c (sf_id folder)); [congruence|reflexivity].
Qed.

(** X18. A document without a cluster can be dropped on every folder,
    yet while it is dragged the sidebar does not consider a drag active:
    [dragSourceFolderId] is null, so [isDragActive] and [canAcceptDrag]
    are false for every folder. *)
Theorem unclustered_document_drag doc folder :
  doc_cluster_id doc = None ->
  JSON_parse (transfer_data (handleDragStart JSON_stringify doc))
    = inr (drag_payload doc) ->
  let started := handleDragStart JSON_stringify doc in
  let dragSourceFolderId :=
    handleDragActive (detail_sourceFolderId started) in
  isDragActive dragSourceFolderId = false
  /\ canAcceptDrag dragSourceFolderId folder = false
  /\ onFolderDrop_calls JSON_parse TypeError_message folder
       (transfer_data started)
     = [(sf_id folder, Some (JStr (doc_id doc)))].
Proof.
  intros Hc Hp started src. subst started src.
  rewrite (calls_of_payload folder _ doc Hp).
  unfold handleDragStart, handleDragActive. simpl. rewrite Hc.
  repeat split.
Qed.

Lemma handleDrop_no_call_on_exception folder data :
  (exists ex, JSON_parse data = inl ex) \/ JSON_parse data = inr JNull ->
  forall d, ~ In (onDrop d)
                 (handleDrop JSON_parse TypeError_message folder data).
Proof.
  intros H d Hin. apply handleDrop_onDrop in Hin.
  destruct Hin as (parsed & src & Hp & Hd & _).
  destruct H as [[ex H]|H]; rewrite H in Hp; [discriminate|].
  injection Hp as <-. discriminate Hd.
Qed.

(** X19. While a payload can be read during the drag, the highlight of
    [handleDragOver] tells what [handleDrop] will do: for a non-empty
    text that parses to a value other than [null], [canAcceptDrop] is
    set exactly when the drop would call [onDrop].  A non-empty text
    that does not parse, or parses to [null], is shown as droppable and
    then dropped without effect.  With no text (what browsers give
    during a dragover) the state is left as it is. *)
Theorem dragover_highlight_vs_drop folder data st :
  (forall parsed,
     data <> "" ->
     JSON_parse data = inr parsed ->
     parsed <> JNull ->
     (canAcceptDrop
        (handleDragOver JSON_parse TypeError_message folder data st) = true
      <-> exists d, In (onDrop d)
                       (handleDrop JSON_parse TypeError_message
                                   folder data)))
  /\ (data <> "" ->
      (exists ex, JSON_parse data = inl ex)
      \/ JSON_parse data = inr JNull ->
      handleDragOver JSON_parse TypeError_message folder data st
      = {| dragOver := true; canAcceptDrop := true |}
      /\ forall d, ~ In (onDrop d)
                        (handleDrop JSON_parse TypeError_message
                                    folder data))
  /\ (data = "" ->
      handleDragOver JSON_parse TypeError_message folder data st = st).
Proof.
  split; [|split].
  - intros parsed Hne Hp Hnull.
    unfold handleDragOver, handleDrop, truthy_string.
    destruct (String.eqb_spec data ""); [contradiction|]. simpl.
    rewrite Hp.
    destruct parsed as [|b|q|s|items|props]; try contradiction; simpl;
      try (split; [intros _; eexists; do 3 right; left; reflexivity
                  | reflexivity]).
    destruct (strict_eq_string (lookup "sourceFolderId" props)
                               (sf_id folder)); simpl.
    + split; [discriminate|]. intros [d [H|[H|[H|[]]]]]; discriminate H.
    + split; [|reflexivity]. intros _. eexists.
      right. right. right. left. reflexivity.
  - intros Hne H. split.
    + unfold handleDragOver, truthy_string.
      destruct (String.eqb_spec data ""); [contradiction|]. simpl.
      destruct H as [[ex ->] | ->]; reflexivity.
    + apply handleDrop_no_call_on_exception. exact H.
  - intros ->. reflexivity.
Qed.

(** After a drop the item shows no highlight, whatever the payload. *)
Lemma handleDrop_state_cleared folder data st :
  handleDrop_state JSON_parse TypeError_message folder data st
  = {| dragOver := false; canAcceptDrop := false |}.
Proof.
  unfold handleDrop_state, handleDrop. simpl.
  destruct (JSON_parse data) as [ex|parsed]; [reflexivity|].
  destruct (get TypeError_message parsed "documentId"); [reflexivity|].
  destruct (get TypeError_message parsed "sourceFolderId"); [reflexivity|].
  destruct (negb _); reflexivity.
Qed.

End DragFacts.

Section DragWitnesses.
Import Sidebar SidebarRest DocumentCard.

Lemma drag_then_drop_calls_onFolderDrop_witness :
  let doc := mkDocument "d0" "quantum" [] (Some "c0") [] "" "" in
  let folder := mkSemanticFolder "c1" "Cooking" 1 "#10b981" "d1" in
  onFolderDrop_calls (fun _ => inr (drag_payload doc)) "TypeError" folder
    (transfer_data (handleDragStart (fun _ => "{...}") doc))
  = [("c1", Some (JStr "d0"))].
Proof.
  intros doc folder.
  apply (proj2 (drag_then_drop_calls_onFolderDrop (fun _ => "{...}")
                  (fun _ => inr (drag_payload doc)) "TypeError"
                  doc folder eq_refl)).
  discriminate.
Defined.

Lemma unclustered_document_drag_witness :
  let doc := mkDocument "d0" "quantum" [] None [] "" "" in
  let folder := mkSemanticFolder "c1" "Cooking" 1 "#10b981" "d1" in
  let started := handleDragStart (fun _ => "{...}") doc in
  isDragActive (handleDragActive (detail_sourceFolderId started)) = false
  /\ canAcceptDrag (handleDragActive (detail_sourceFolderId started))
                   folder = false
  /\ onFolderDrop_calls (fun _ => inr (drag_payload doc)) "TypeError"
       folder (transfer_data started)
     = [("c1", Some (JStr "d0"))].
Proof.
  intros doc folder.
  apply (unclustered_document_drag (fun _ => "{...}")
           (fun _ => inr (drag_payload doc)) "TypeError" doc folder);
    reflexivity.
Defined.

Lemma dragover_highlight_vs_drop_witness :
  let folder := mkSemanticFolder "c1" "Cooking" 1 "#10b981" "d1" in
  handleDragOver (fun _ => inl (ErrorObj "SyntaxError" "Unexpected token"))
                 "TypeError" folder "not json"
                 {| dragOver := false; canAcceptDrop := false |}
  = {| dragOver := true; canAcceptDrop := true |}
  /\ forall d,
       ~ In (onDrop d)
            (handleDrop
               (fun _ => inl (ErrorObj "SyntaxError" "Unexpected token"))
               "TypeError" folder "not json").
Proof.
  intros folder.
  apply (proj1 (proj2 (dragover_highlight_vs_drop
                         (fun _ => inl (ErrorObj "SyntaxError"
                                                 "Unexpected token"))
                         "TypeError" folder "not json"
                         {| dragOver := false;
                            canAcceptDrop := false |}))).
  - discriminate.
  - left. eexists. reflexivity.
Defined.

End DragWitnesses.

(** ** The rest of [FileSystemView] *)

Section ViewFacts.
Import UseToast FileSystemView FileSystemViewRest.

Lemma mod8_cases (i : nat) :
  let r := (i mod 8)%nat in
  r = 0%nat \/ r = 1%nat \/ r = 2%nat \/ r = 3%nat
  \/ r = 4%nat \/ r = 5%nat \/ r = 6%nat \/ r = 7%nat.
Proof.
  intros r. assert (H : (r < 8)%nat) by (apply Nat.mod_upper_bound; lia).
  lia.
Qed.

(** X20. [generateFolderColor] always yields one of the eight colours,
    and two folders get the same colour exactly when their positions are
    congruent modulo 8. *)
Theorem generateFolderColor_cycles (i j : nat) :
  (exists c, generateFolderColor i = Some c /\ In c colors)
  /\ (generateFolderColor i = generateFolderColor j
      <-> (i mod 8 = j mod 8)%nat).
Proof.
  unfold generateFolderColor. change (List.length colors) with 8%nat.
  pose proof (mod8_cases i) as Hi. pose proof (mod8_cases j) as Hj.
  cbv zeta in Hi, Hj. split.
  - repeat (destruct Hi as [Hi|Hi]; [rewrite Hi; eexists; split;
                                      [reflexivity | simpl; tauto]|]).
    rewrite Hi. eexists. split; [reflexivity | simpl; tauto].
  - split.
    + repeat (destruct Hi as [Hi|Hi]);
        repeat (destruct Hj as [Hj|Hj]);
        rewrite Hi, Hj; simpl; intros H;
        try reflexivity; discriminate H.
    + intros ->. reflexivity.
Qed.

Lemma folders_from_In clusters : forall index f,
  In f (folders_from index clusters) ->
  exists cluster,
    In cluster clusters
    /\ sf_id f = cl_id cluster
    /\ sf_documentCount f = List.length (cl_document_ids cluster).
Proof.
  induction clusters as [|c l IH]; intros index f Hin; [contradiction|].
  destruct Hin as [<-|Hin].
  - exists c. simpl. auto.
  - destruct (IH (S index) f Hin) as [c' (H1 & H2 & H3)].
    exists c'. simpl. auto.
Qed.

Lemma NoDup_map_filter {A B} (g : A -> B) (p : A -> bool) l :
  NoDup (map g l) -> NoDup (map g (filter p l)).
Proof.
  induction l as [|x l IH]; simpl; intros H; [constructor|].
  inversion H as [|? ? Hx Hl]; subst.
  destruct (p x); simpl; [|apply IH; exact Hl].
  constructor; [|apply IH; exact Hl].
  intros Hin. apply Hx. apply in_map_iff in Hin.
  destruct Hin as [y [Hy Hin]]. apply filter_In in Hin.
  apply in_map_iff. exists y. tauto.
Qed.

Lemma consistent_cluster_count d cluster :
  consistent_cluster d cluster ->
  List.length (cl_document_ids cluster)
  = List.length (GridView.documents_of_folder (cl_id cluster)
                   (documents d)).
Proof.
  intros (Hids & Hdocs & Hiff).
  unfold GridView.documents_of_folder.
  set (p := fun doc : Document =>
              match doc_cluster_id doc with
              | Some c => String.eqb c (cl_id cluster)
              | None => false
              end).
  rewrite <- (length_map doc_id (filter p (documents d))).
  assert (Hsame : forall i,
             In i (cl_document_ids cluster)
             <-> In i (map doc_id (filter p (documents d)))).
  { intros i. rewrite Hiff, in_map_iff. split.
    - intros [doc (H1 & H2 & H3)]. exists doc. split; [exact H2|].
      apply filter_In. split; [exact H1|]. unfold p. rewrite H3.
      apply String.eqb_refl.
    - intros [doc [H1 H2]]. apply filter_In in H2. destruct H2 as [H2 H3].
      exists doc. repeat split; auto. unfold p in H3.
      destruct (doc_cluster_id doc) as [c|]; [|discriminate].
      apply String.eqb_eq in H3. congruence. }
  apply Nat.le_antisymm; apply NoDup_incl_length;
    try assumption; try (apply NoDup_map_filter; assumption);
    intros i Hi; apply Hsame; exact Hi.
Qed.

(** X21. On a snapshot that is consistent for its folders (each folder's
    [document_ids] are, without repetition, the documents whose
    [cluster_id] is the folder, and document ids are unique), the count
    shown beside a folder in the sidebar equals the count the grid shows
    when that folder is selected. *)
Theorem sidebar_count_matches_grid v d :
  clusterData v = Some d ->
  (forall cluster, In cluster (folders d) -> consistent_cluster d cluster) ->
  forall f, In f (folders_of v) ->
    sf_id f <> "" ->
    sf_documentCount f
    = GridView.count (GridView.GridView (documents_of v) (Some (sf_id f))).
Proof.
  intros Hd Hc f Hin Hne. unfold folders_of, documents_of in *.
  rewrite Hd in *.
  destruct (folders_from_In _ _ _ Hin) as [cluster (H1 & H2 & H3)].
  rewrite H3, (consistent_cluster_count d cluster (Hc cluster H1)).
  unfold GridView.GridView, GridView.filteredDocuments. simpl.
  unfold GridView.selected, truthy_string.
  destruct (String.eqb_spec (sf_id f) ""); [contradiction|]. simpl.
  rewrite H2. reflexivity.
Qed.

Lemma existsb_folder_id s l :
  existsb (fun f => String.eqb (sf_id f) s) l = true
  <-> exists f, In f l /\ sf_id f = s.
Proof.
  rewrite existsb_exists. split; intros [f [H1 H2]]; exists f;
    (split; [exact H1|]); apply String.eqb_eq; exact H2.
Qed.

(** X22. After the effect that validates the selection, when there are
    folders a selected id that is not empty is the id of one of them.
    The effect changes only the selection: the state is either what it
    was or what it was with the selection set to null (cluster data,
    [isReEmbedding], [updateCounter] and toasts are untouched); running
    it again changes nothing.  When there are no folders the selection
    is kept, whatever it is. *)
Theorem validate_selection_keeps_existing_folder v :
  let v' := validate_selection v in
  (folders_of v <> [] ->
   forall s, selectedFolderId v' = Some s -> s <> "" ->
     exists f, In f (folders_of v') /\ sf_id f = s)
  /\ (v' = v \/ v' = setSelectedFolderId None v)
  /\ clusterData v' = clusterData v
  /\ isReEmbedding v' = isReEmbedding v
  /\ updateCounter v' = updateCounter v
  /\ toasts v' = toasts v
  /\ validate_selection v' = v'
  /\ (folders_of v = [] -> v' = v).
Proof.
  unfold validate_selection.
  destruct (selectedFolderId v) as [s0|] eqn:Es.
  2:{ simpl. rewrite Es. repeat split; try reflexivity.
      - intros _ s H. discriminate H.
      - left. reflexivity. }
  destruct (truthy_string s0) eqn:Et; simpl.
  2:{ rewrite Es, Et. simpl. repeat split; try reflexivity.
      - intros _ s [= <-] Hne. unfold truthy_string in Et.
        destruct (String.eqb_spec s0 ""); [contradiction|discriminate].
      - left. reflexivity. }
  destruct (Nat.eqb (List.length (folders_of v)) 0) eqn:En; simpl.
  { rewrite Es, Et, En. simpl. repeat split; try reflexivity.
    - intros Hne. apply Nat.eqb_eq in En. apply length_zero_iff_nil in En.
      contradiction.
    - left. reflexivity. }
  destruct (existsb (fun f => String.eqb (sf_id f) s0) (folders_of v))
    eqn:Ex.
  - rewrite Es, Et, En, Ex. simpl. repeat split; try reflexivity.
    + intros _ s [= <-] _. apply existsb_folder_id. exact Ex.
    + left. reflexivity.
  - simpl. repeat split; try reflexivity.
    + intros _ s H. discriminate H.
    + right. reflexivity.
    + intros Hnil. rewrite Hnil in En. discriminate En.
Qed.

Lemma validate_selection_keeps_existing_folder_witness :
  let d := mkClusterData
             [mkCluster "c0" "Physics" [] ["d0"] "d0"] [] "" in
  let v := setSelectedFolderId (Some "c0") (initial (Some d)) in
  exists f, In f (folders_of (validate_selection v)) /\ sf_id f = "c0".
Proof.
  intros d v.
  apply (proj1 (validate_selection_keeps_existing_folder v)).
  - discriminate.
  - reflexivity.
  - discriminate.
Defined.

(** X23. Clicking a folder while none is selected makes the grid show
    exactly that folder's documents; clicking it again shows all
    documents.  (The folder's id is not empty.) *)
Theorem folder_click_toggles_filter folderId v :
  selectedFolderId v = None ->
  folderId <> "" ->
  let once := handleFolderSelect folderId v in
  let twice := handleFolderSelect folderId once in
  GridView.filteredDocuments (documents_of once) (selectedFolderId once)
  = GridView.documents_of_folder folderId (documents_of v)
  /\ GridView.filteredDocuments (documents_of twice)
                                (selectedFolderId twice)
     = documents_of v.
Proof.
  intros Hs Hne once twice.
  assert (H1 : selectedFolderId once = Some folderId).
  { subst once. unfold handleFolderSelect. rewrite Hs. reflexivity. }
  assert (H2 : selectedFolderId twice = None).
  { subst twice. unfold handleFolderSelect at 1. rewrite H1.
    rewrite String.eqb_refl. reflexivity. }
  assert (D1 : documents_of once = documents_of v) by reflexivity.
  assert (D2 : documents_of twice = documents_of v) by reflexivity.
  rewrite H1, H2, D1, D2.
  unfold GridView.filteredDocuments, GridView.selected, truthy_string.
  destruct (String.eqb_spec folderId ""); [contradiction|]. simpl.
  split; reflexivity.
Qed.

Lemma folder_click_toggles_filter_witness :
  let d0 := mkDocument "d0" "quantum" [] (Some "c0") [] "" "" in
  let d1 := mkDocument "d1" "pasta" [] (Some "c1") [] "" "" in
  let v := initial (Some (mkClusterData [] [d0; d1] "")) in
  GridView.filteredDocuments
    (documents_of (handleFolderSelect "c1" v))
    (selectedFolderId (handleFolderSelect "c1" v))
  = GridView.documents_of_folder "c1" (documents_of v)
  /\ GridView.filteredDocuments
       (documents_of (handleFolderSelect "c1" (handleFolderSelect "c1" v)))
       (selectedFolderId
          (handleFolderSelect "c1" (handleFolderSelect "c1" v)))
     = documents_of v.
Proof.
  intros d0 d1 v.
  apply (folder_click_toggles_filter "c1" v eq_refl). discriminate.
Defined.

End ViewFacts.

Section ViewWitnesses.
Import FileSystemView FileSystemViewRest.

Lemma sidebar_count_matches_grid_witness :
  let d0 := mkDocument "d0" "quantum" [] (Some "c0") [] "" "" in
  let d1 := mkDocument "d1" "pasta" [] (Some "c1") [] "" "" in
  let c0 := mkCluster "c0" "Physics" [] ["d0"] "d0" in
  let v := initial (Some (mkClusterData [c0] [d0; d1] "")) in
  let f := mkSemanticFolder "c0" "Physics" 1 "#3b82f6" "d0" in
  sf_documentCount f
  = GridView.count (GridView.GridView (documents_of v) (Some (sf_id f))).
Proof.
  intros d0 d1 c0 v f.
  apply (sidebar_count_matches_grid v (mkClusterData [c0] [d0; d1] "")
           eq_refl).
  - intros cluster [<-|[]]. repeat split.
    + repeat constructor; simpl; tauto.
    + repeat constructor; simpl; intuition discriminate.
    + intros [<-|[]]. exists d0. simpl. auto.
    + intros [doc (H1 & H2 & H3)].
      destruct H1 as [<-|[<-|[]]]; simpl in *;
        [left; exact H2 | discriminate H3].
  - left. reflexivity.
  - discriminate.
Defined.

End ViewWitnesses.

(** ** The view as a state machine *)

Section MachineFacts.
Import UseToast FileSystemView FileSystemViewRest.

Lemma invoke_clusterData inv fresh s :
  clusterData (view (invoke inv fresh s)) = clusterData (view s).
Proof.
  unfold invoke, handleFolderDrop_enter.
  destruct (inv_isReEmbedding inv); reflexivity.
Qed.

(** X24. The cluster data of the view changes only when a pending
    re-embed settles with success, and then it becomes the folders and
    documents of the response with a fresh timestamp; drops, retries,
    failed re-embeds, dismissals and folder clicks leave it as it is. *)
Theorem clusterData_changes_only_on_success s e :
  clusterData (view (step s e)) <> clusterData (view s) ->
  exists n d now fresh inv,
    e = Settle n (Fulfilled (Success d)) now fresh
    /\ nth_error (inflight s) n = Some inv
    /\ clusterData (view (step s e))
       = Some {| folders := folders (updated_clusters d);
                 documents := documents (updated_clusters d);
                 timestamp := now |}.
Proof.
  destruct e as [target doc fresh | toast fresh | n o now fresh
                 | toast | folderId]; simpl.
  - rewrite invoke_clusterData. intros H. contradiction.
  - destruct (find _ _) as [t|]; [|intros H; contradiction].
    destruct (retry_button t) as [inv|]; [|intros H; contradiction].
    simpl. rewrite invoke_clusterData. intros H. contradiction.
  - destruct (nth_error (inflight s) n) as [inv|] eqn:En;
      [|intros H; contradiction].
    destruct o as [[d|err]|ex]; simpl; intros H; try contradiction.
    exists n, d, now, fresh, inv. auto.
  - intros H. contradiction.
  - intros H. contradiction.
Qed.

Lemma clusterData_changes_only_on_success_witness :
  let s := run (start None)
               [FolderDrop "c1" (Some (JStr "d0")) "toast-1"] in
  let e := Settle 0 (Fulfilled (Success
                       (mkReEmbedResponse true "c1"
                          (mkClusterData [] [] "old"))))
                  "2026-01-01T00:00:00" "toast-2" in
  exists n d now fresh inv,
    e = Settle n (Fulfilled (Success d)) now fresh
    /\ nth_error (inflight s) n = Some inv
    /\ clusterData (view (step s e))
       = Some {| folders := folders (updated_clusters d);
                 documents := documents (updated_clusters d);
                 timestamp := now |}.
Proof.
  intros s e.
  apply (clusterData_changes_only_on_success s e). discriminate.
Defined.

Lemma overlay_invoke inv fresh s :
  overlay_has_cause s -> overlay_has_cause (invoke inv fresh s).
Proof.
  unfold overlay_has_cause, invoke, handleFolderDrop_enter.
  destruct (inv_isReEmbedding inv); simpl; intros H.
  - exact H.
  - intros _. destruct (inflight s); discriminate.
Qed.

Lemma overlay_step s e :
  overlay_has_cause s -> overlay_has_cause (step s e).
Proof.
  intros H.
  destruct e as [target doc fresh | toast fresh | n o now fresh
                 | toast | folderId]; simpl.
  - apply overlay_invoke. exact H.
  - destruct (find _ _) as [t|]; [|exact H].
    destruct (retry_button t) as [inv|]; [|exact H].
    pose proof (overlay_invoke inv fresh s H) as H'.
    unfold overlay_has_cause in *. simpl. exact H'.
  - destruct (nth_error (inflight s) n) as [inv|]; [|exact H].
    unfold overlay_has_cause. simpl. discriminate.
  - exact H.
  - exact H.
Qed.

Lemma overlay_run events : forall s,
  overlay_has_cause s -> overlay_has_cause (run s events).
Proof.
  induction events as [|e events IH]; intros s H; [exact H|].
  simpl. apply IH. apply overlay_step. exact H.
Qed.

(** X25. The view is never left blocked: after any sequence of drops,
    Retry clicks, settled calls, dismissals and folder clicks, if no
    re-embed call is pending then [isReEmbedding] is false, so the
    loading overlay is not shown and the next drop is accepted. *)
Theorem overlay_never_sticks initialData events :
  let s := run (start initialData) events in
  inflight s = [] ->
  isReEmbedding (view s) = false
  /\ forall target doc fresh,
       issued (step s (FolderDrop target doc fresh))
       = (issued s ++ [(doc, target)])%list.
Proof.
  intros s Hnil.
  assert (H : overlay_has_cause s).
  { apply overlay_run. unfold overlay_has_cause. discriminate. }
  assert (Hf : isReEmbedding (view s) = false).
  { destruct (isReEmbedding (view s)) eqn:E; [|reflexivity].
    exfalso. apply (H E). exact Hnil. }
  split; [exact Hf|].
  intros target doc fresh. simpl.
  unfold invoke, handleFolderDrop_enter. simpl. rewrite Hf. reflexivity.
Qed.

Lemma overlay_never_sticks_witness :
  let s := run (start None)
             [FolderDrop "c1" (Some (JStr "d0")) "toast-1";
              Settle 0 (Rejected NonError)
                     "2026-01-01T00:00:00" "toast-2"] in
  isReEmbedding (view s) = false
  /\ forall target doc fresh,
       issued (step s (FolderDrop target doc fresh))
       = (issued s ++ [(doc, target)])%list.
Proof.
  intros s.
  apply (overlay_never_sticks None
           [FolderDrop "c1" (Some (JStr "d0")) "toast-1";
            Settle 0 (Rejected NonError) "2026-01-01T00:00:00" "toast-2"]).
  reflexivity.
Defined.

Lemma In_remove_nth {A} (n : nat) : forall (l : list A) x,
  In x (remove_nth n l) -> In x l.
Proof.
  induction n as [|n IH]; intros [|y l] x H; simpl in *; auto.
  destruct H as [H|H]; auto.
Qed.

Lemma guards_invoke inv fresh s :
  inv_isReEmbedding inv = isReEmbedding (view s)
  \/ inv_isReEmbedding inv = false ->
  guards_passed s -> guards_passed (invoke inv fresh s).
Proof.
  intros Hinv [Hr Hi]. unfold guards_passed, retries_pass_guard, invoke,
    handleFolderDrop_enter.
  destruct (inv_isReEmbedding inv) eqn:E; simpl.
  - split; [|exact Hi].
    intros t inv' Hin Ho. unfold showError, showToast in Hin.
    apply in_app_or in Hin. destruct Hin as [Hin|[<-|[]]].
    + apply (Hr t inv' Hin Ho).
    + discriminate Ho.
  - split; [exact Hr|].
    intros inv' Hin. apply in_app_or in Hin.
    destruct Hin as [Hin|[<-|[]]]; [apply Hi; exact Hin | exact E].
Qed.

Lemma guards_dismiss toast s :
  guards_passed s ->
  guards_passed {| view := setToasts (dismissToast toast) (view s);
                   inflight := inflight s; issued := issued s |}.
Proof.
  intros [Hr Hi]. split; [|exact Hi].
  intros t inv Hin Ho. simpl in Hin. unfold dismissToast in Hin.
  apply filter_In in Hin. apply (Hr t inv (proj1 Hin) Ho).
Qed.

Lemma guards_step s e : guards_passed s -> guards_passed (step s e).
Proof.
  intros H.
  destruct e as [target doc fresh | toast fresh | n o now fresh
                 | toast | folderId]; simpl.
  - apply guards_invoke; [left; reflexivity | exact H].
  - destruct (find _ _) as [t|] eqn:Ef; [|exact H].
    destruct (retry_button t) as [inv|] eqn:Er; [|exact H].
    assert (Hinv : inv_isReEmbedding inv = false).
    { apply find_some in Ef. destruct Ef as [Hin _].
      unfold retry_button in Er.
      destruct (canRetry t) as [[|]|]; try discriminate.
      apply (proj1 H t inv Hin Er). }
    pose proof (guards_invoke inv fresh s (or_intror Hinv) H) as H'.
    apply (guards_dismiss toast _ H').
  - destruct (nth_error (inflight s) n) as [inv|] eqn:En; [|exact H].
    destruct H as [Hr Hi].
    assert (Hinv : inv_isReEmbedding inv = false).
    { apply Hi. apply nth_error_In in En. exact En. }
    split.
    + intros t inv' Hin Ho. simpl in Hin.
      destruct o as [[d|err]|ex]; simpl in Hin;
        unfold showSuccess, showError, showToast in Hin;
        apply in_app_or in Hin; destruct Hin as [Hin|[<-|[]]];
        try (apply (Hr t inv' Hin Ho));
        simpl in Ho; try discriminate Ho;
        injection Ho as <-; exact Hinv.
    + intros inv' Hin. simpl in Hin. apply In_remove_nth in Hin.
      apply Hi. exact Hin.
  - apply (guards_dismiss toast s H).
  - exact H.
Qed.

Lemma guards_run events : forall s,
  guards_passed s -> guards_passed (run s events).
Proof.
  induction events as [|e events IH]; intros s H; [exact H|].
  simpl. apply IH. apply guards_step. exact H.
Qed.

(** X26. The Retry button of a toast is never turned away by the guard
    of [handleFolderDrop]: the call it keeps belongs to the render that
    showed no re-embed in progress, so in every state the view can reach
    a click on it sends its request, also while another re-embed is in
    flight. *)
Theorem retry_click_always_sends initialData events toast fresh t inv :
  let s := run (start initialData) events in
  find (fun t => String.eqb (id t) toast) (toasts (view s)) = Some t ->
  retry_button t = Some inv ->
  issued (step s (RetryClick toast fresh))
  = (issued s ++ [(inv_documentId inv, inv_targetFolderId inv)])%list
  /\ inflight (step s (RetryClick toast fresh))
     = (inflight s ++ [inv])%list.
Proof.
  intros s Hf Hr.
  assert (H : guards_passed s).
  { apply guards_run. split; [intros t0 inv0 []|intros inv0 []]. }
  assert (Hinv : inv_isReEmbedding inv = false).
  { pose proof (find_some _ _ Hf) as [Hin _].
    unfold retry_button in Hr.
    destruct (canRetry t) as [[|]|]; try discriminate.
    apply (proj1 H t inv Hin Hr). }
  simpl. rewrite Hf, Hr. unfold invoke, handleFolderDrop_enter.
  rewrite Hinv. split; reflexivity.
Qed.

Lemma retry_click_always_sends_witness :
  let events :=
    [FolderDrop "c1" (Some (JStr "d0")) "toast-1";
     Settle 0 (Fulfilled (Failure
                 {| detail := Some (JStr "Request timeout"); status := 0 |}))
            "2026-01-01T00:00:00" "toast-2";
     FolderDrop "c2" (Some (JStr "d1")) "toast-3"] in
  let s := run (start None) events in
  let inv := mkInvocation false "c1" (Some (JStr "d0")) in
  issued (step s (RetryClick "toast-2" "toast-4"))
  = (issued s ++ [(Some (JStr "d0"), "c1")])%list
  /\ inflight (step s (RetryClick "toast-2" "toast-4"))
     = (inflight s ++ [inv])%list.
Proof.
  intros events s inv.
  apply (retry_click_always_sends None events "toast-2" "toast-4"
           (mkToast "toast-2" error (Some (JStr "Request timeout"))
                    (Some true) (Some inv) (Some 0))
           inv);
    reflexivity.
Defined.

Lemma find_last_fresh {A} (f : A -> bool) l x :
  (forall y, In y l -> f y = false) -> f x = true ->
  find f (l ++ [x]) = Some x.
Proof.
  intros Hl Hx. induction l as [|y l IH]; simpl.
  - rewrite Hx. reflexivity.
  - rewrite (Hl y (or_introl eq_refl)). apply IH.
    intros z Hz. apply Hl. right. exact Hz.
Qed.

(** X27. When a pending re-embed fails with a detail that is a string
    (the error [reEmbedDocument] returned, or the message of what the
    call threw), the view gains one error toast, under an id no other
    toast has, whose paragraph shows exactly that text, that no timer
    dismisses, and whose Retry button holds the failed call.  A click on
    it runs [handleFolderDrop] again with the same [targetFolderId] and
    [documentId] and then dismisses the toast; as the call belongs to a
    render without a re-embed in progress, the request is sent again.
    The cluster data is left as it was. *)
Theorem failed_reEmbed_toast_retries_the_same_call
        browser env_url w s n inv o msg text now fresh :
  nth_error (inflight s) n = Some inv ->
  failed_reEmbed (ApiClient.apiClient browser env_url) w inv o msg ->
  msg = Some (JStr text) ->
  (forall t0, In t0 (toasts (view s)) -> id t0 <> fresh) ->
  let s' := step s (Settle n o now fresh) in
  clusterData (view s') = clusterData (view s)
  /\ exists t,
       toasts (view s') = (toasts (view s) ++ [t])%list
       /\ id t = fresh
       /\ type t = error
       /\ Screen.message_paragraph t = Some [React.TextStr text]
       /\ duration t = Some 0
       /\ auto_dismiss_after t = None
       /\ retry_button t = Some inv
       /\ (forall fresh2,
             step s' (RetryClick fresh fresh2)
             = let s1 := invoke inv fresh2 s' in
               {| view := setToasts (dismissToast fresh) (view s1);
                  inflight := inflight s1;
                  issued := issued s1 |})
       /\ (inv_isReEmbedding inv = false ->
           forall fresh2,
             issued (step s' (RetryClick fresh fresh2))
             = (issued s'
                  ++ [(inv_documentId inv, inv_targetFolderId inv)])%list
             /\ inflight (step s' (RetryClick fresh fresh2))
                = (inflight s' ++ [inv])%list
             /\ forall t', In t' (toasts
                                    (view (step s'
                                             (RetryClick fresh fresh2))))
                           -> id t' <> fresh).
Proof.
  intros Hn Hfail Hmsg Hfresh s'.
  set (t := {| id := fresh; type := error; message := msg;
               canRetry := Some true; onRetry := Some inv;
               duration := Some 0 |}).
  assert (Ht : toasts (view s') = (toasts (view s) ++ [t])%list
               /\ clusterData (view s') = clusterData (view s)).
  { subst s' t. simpl. rewrite Hn. simpl.
    destruct Hfail as [e He | name m | ]; simpl.
    - apply request_failure_truthy in He.
      unfold ApiClient.truthy_error in He.
      unfold showError, showToast. simpl.
      rewrite (or_else_of_truthy _ _ He). split; reflexivity.
    - split; reflexivity.
    - split; reflexivity. }
  destruct Ht as [Ht Hc].
  assert (Hfind : find (fun t0 => String.eqb (id t0) fresh)
                       (toasts (view s')) = Some t).
  { rewrite Ht. apply find_last_fresh.
    - intros y Hy. apply String.eqb_neq. apply Hfresh. exact Hy.
    - apply String.eqb_refl. }
  split; [exact Hc|]. exists t.
  split; [exact Ht|]. split; [reflexivity|]. split; [reflexivity|].
  split; [subst t; unfold Screen.message_paragraph; simpl;
          rewrite Hmsg; reflexivity|].
  split; [reflexivity|]. split; [reflexivity|]. split; [reflexivity|].
  split.
  - intros fresh2. cbn [step]. rewrite Hfind. reflexivity.
  - intros Hinv fresh2. cbn [step]. rewrite Hfind.
    change (retry_button t) with (Some inv).
    unfold invoke, handleFolderDrop_enter. rewrite Hinv. cbn.
    split; [reflexivity|]. split; [reflexivity|].
    intros t' Hin. unfold dismissToast in Hin. apply filter_In in Hin.
    destruct Hin as [_ Hin]. apply negb_true_iff, String.eqb_neq in Hin.
    exact Hin.
Qed.

Lemma failed_reEmbed_toast_retries_the_same_call_witness :
  let inv := mkInvocation false "c1" (Some (JStr "d0")) in
  let s := run (start None)
               [FolderDrop "c1" (Some (JStr "d0")) "toast-1"] in
  let o := Fulfilled (Failure
             {| detail := Some (JStr "Failed to fetch"); status := 0 |}) in
  let s' := step s (Settle 0 o "2026-01-01T00:00:00" "toast-2") in
  clusterData (view s') = clusterData (view s)
  /\ exists t,
       toasts (view s') = (toasts (view s) ++ [t])%list
       /\ id t = "toast-2"
       /\ type t = error
       /\ Screen.message_paragraph t
          = Some [React.TextStr "Failed to fetch"]
       /\ duration t = Some 0
       /\ auto_dismiss_after t = None
       /\ retry_button t = Some inv
       /\ (forall fresh2,
             step s' (RetryClick "toast-2" fresh2)
             = let s1 := invoke inv fresh2 s' in
               {| view := setToasts (dismissToast "toast-2") (view s1);
                  inflight := inflight s1;
                  issued := issued s1 |})
       /\ (inv_isReEmbedding inv = false ->
           forall fresh2,
             issued (step s' (RetryClick "toast-2" fresh2))
             = (issued s'
                  ++ [(inv_documentId inv, inv_targetFolderId inv)])%list
             /\ inflight (step s' (RetryClick "toast-2" fresh2))
                = (inflight s' ++ [inv])%list
             /\ forall t', In t' (toasts
                                    (view (step s'
                                             (RetryClick "toast-2"
                                                         fresh2))))
                           -> id t' <> "toast-2").
Proof.
  intros inv s o.
  apply (failed_reEmbed_toast_retries_the_same_call true None
           Sample.unreachable s 0%nat inv o
           (Some (JStr "Failed to fetch")) "Failed to fetch"
           "2026-01-01T00:00:00" "toast-2").
  - reflexivity.
  - apply (api_failure (ApiClient.apiClient true None) Sample.unreachable
             inv
             {| detail := Some (JStr "Failed to fetch"); status := 0 |}).
    reflexivity.
  - reflexivity.
  - intros t0 [].
Defined.

End MachineFacts.
